(** * unionfs: the image and header layers (src/src/ufs_image.c, src/src/ufs_header.c)

    A shallow embedding of the two lowest layers of ufs.  The process sees
    - a file system (path -> file, each file a length and its bytes),
    - the mappings it holds (block -> mapping), addressed CompCert style by a
      pointer (block, offset) with block 0 the NULL pointer,
    - the global status word [ufsErrno] and the page size ([sysconf]).
    The outcome of each system call that the file system alone does not
    decide (permissions, resource limits) is read from a record [sys] of
    oracles, quantified over in every statement.  A C function is a
    computation in a state monad over the world that may fault (dereference
    of an unmapped pointer). *)

From Stdlib Require Import ZArith Lia.
From stdpp Require Import base gmap strings list fin_maps.

Open Scope Z_scope.

(** ** ufs_defs.h *)

Definition UFS_INDEX_VERSION : Z := 1.
Definition UFS_MAGIC_NUMBER : Z := 7562869. (* 0x00736675 *)

Definition UFS_NO_ERROR : Z := 0.
Definition UFS_IMAGE_DOES_NOT_EXIST : Z := -1.
Definition UFS_IMAGE_IS_CORRUPTED : Z := -2.
Definition UFS_VERSION_MISMATCH : Z := -3.
Definition UFS_BAD_CALL : Z := -4.
Definition UFS_CANT_CREATE_FILE : Z := -11.
Definition UFS_UNKNOWN_ERROR : Z := -12.
Definition UFS_IMAGE_TOO_SMALL : Z := -12.
Definition UFS_IMAGE_COULD_NOT_SYNC : Z := -13.

(** errno value of [open] for a permission failure (Linux). *)
Definition EACCES : Z := 13.

(** uint64_t arithmetic *)
Definition u64_mod : Z := 2 ^ 64.
Definition add64 (a b : Z) : Z := (a + b) mod u64_mod.
Definition mul64 (a b : Z) : Z := (a * b) mod u64_mod.

(** ** The world *)

Record file := mkFile {
  f_len : Z;            (* st_size *)
  f_data : gmap Z Z;    (* bytes written so far; absent bytes are zero *)
  f_mode : Z
}.

Record mapping := mkMapping {
  m_path : string;      (* the file the region is backed by *)
  m_len : Z;            (* length passed to mmap *)
  m_prot_rw : bool;     (* PROT_READ | PROT_WRITE *)
  m_shared : bool       (* MAP_SHARED *)
}.

Record world := mkWorld {
  w_fs : gmap string file;
  w_maps : gmap Z mapping;
  w_next : Z;           (* block of the next mapping *)
  w_errno : Z;          (* ufsErrno *)
  w_page : Z            (* sysconf( _SC_PAGESIZE ) *)
}.

Definition set_errno (e : Z) (w : world) : world :=
  mkWorld (w_fs w) (w_maps w) (w_next w) e (w_page w).
Definition set_fs (fs : gmap string file) (w : world) : world :=
  mkWorld fs (w_maps w) (w_next w) (w_errno w) (w_page w).
Definition set_maps (ms : gmap Z mapping) (w : world) : world :=
  mkWorld (w_fs w) ms (w_next w) (w_errno w) (w_page w).

(** Outcomes of the system calls that the file system does not decide. *)
Record sys := mkSys {
  sys_open_rw : string -> bool;         (* open( p, O_RDWR ) on an existing file *)
  sys_open_creat : string -> option Z;  (* open( p, O_CREAT | O_RDWR, 0644 ): None or errno *)
  sys_fstat : string -> bool;
  sys_ftruncate : string -> Z -> bool;
  sys_mmap : string -> Z -> bool;
  sys_msync : Z -> bool
}.

(** A pointer: (block, offset); block 0 is NULL. *)
Definition ptr : Type := (Z * Z)%type.
Definition NULL : ptr := (0, 0).

(** ** A state monad with faults *)

Definition M (A : Type) : Type := world -> option (A * world).

Definition retM {A} (a : A) : M A := fun w => Some (a, w).
Definition bindM {A B} (m : M A) (k : A -> M B) : M B :=
  fun w => match m w with
           | Some (a, w') => k a w'
           | None => None
           end.
Definition getW : M world := fun w => Some (w, w).
Definition putW (w : world) : M unit := fun _ => Some (tt, w).
Definition faultM {A} : M A := fun _ => None.
Definition setErrno (e : Z) : M unit := fun w => Some (tt, set_errno e w).

Notation "x <-- m ;; k" := (bindM m (fun x => k))
  (at level 62, m at next level, right associativity).
Notation "m ;;; k" := (bindM m (fun _ => k))
  (at level 62, right associativity).

(** ** Bytes of a file, little endian *)

Definition empty_file : file := mkFile 0 ∅ 0.

(** A byte past the end of the file reads as zero (the rest of its last page). *)
Definition byte_at (f : file) (i : Z) : Z :=
  if (0 <=? i) && (i <? f_len f) then default 0 (f_data f !! i) else 0.

(** A byte stored past the end of the file does not reach the file. *)
Definition store_byte (f : file) (i v : Z) : file :=
  if (0 <=? i) && (i <? f_len f)
  then mkFile (f_len f) (<[i := v mod 256]> (f_data f)) (f_mode f)
  else f.

Fixpoint load_le (f : file) (off : Z) (n : nat) : Z :=
  match n with
  | O => 0
  | S n' => byte_at f off + 256 * load_le f (off + 1) n'
  end.

Fixpoint store_le (f : file) (off : Z) (n : nat) (v : Z) : file :=
  match n with
  | O => f
  | S n' => store_le (store_byte f off v) (off + 1) n' (v / 256)
  end.

(** ftruncate: the length becomes [n], bytes past it are dropped, so that
    growing the file again reads zeros. *)
Definition truncate_file (f : file) (n : Z) : file :=
  mkFile n (filter (fun kv : Z * Z => kv.1 < n) (f_data f)) (f_mode f).

Definition file_of (w : world) (p : string) : file :=
  default empty_file (w_fs w !! p).

(** ** Memory through a mapping (MAP_SHARED: the bytes are the file's) *)

Definition mem_load (p : ptr) (n : nat) : M Z := fun w =>
  if p.1 =? 0 then None else
  match w_maps w !! p.1 with
  | None => None
  | Some m => Some (load_le (file_of w (m_path m)) p.2 n, w)
  end.

Definition mem_store (p : ptr) (n : nat) (v : Z) : M unit := fun w =>
  if p.1 =? 0 then None else
  match w_maps w !! p.1 with
  | None => None
  | Some m =>
      match w_fs w !! m_path m with
      | Some f => Some (tt, set_fs (<[m_path m := store_le f p.2 n v]> (w_fs w)) w)
      | None => Some (tt, w)
      end
  end.

Definition load_u32 (p : ptr) : M Z := mem_load p 4.
Definition load_u64 (p : ptr) : M Z := mem_load p 8.
Definition store_u32 (p : ptr) (v : Z) : M unit := mem_store p 4 v.
Definition store_u64 (p : ptr) (v : Z) : M unit := mem_store p 8 v.

Definition ptr_add (p : ptr) (k : Z) : ptr := (p.1, p.2 + k).

(** ** System calls *)

(** access( p, F_OK ) == 0 *)
Definition sys_access (p : string) : M bool := fun w =>
  Some (bool_decide (is_Some (w_fs w !! p)), w).

(** open( p, O_RDWR ) != -1 *)
Definition sys_open_rdwr (s : sys) (p : string) : M bool := fun w =>
  Some (bool_decide (is_Some (w_fs w !! p)) && sys_open_rw s p, w).

(** fstat: Some st_size, or None for -1 *)
Definition sys_fstat_size (s : sys) (p : string) : M (option Z) := fun w =>
  if sys_fstat s p
  then Some (option_map f_len (w_fs w !! p), w)
  else Some (None, w).

(** open( p, O_CREAT | O_RDWR, 0644 ): creates an empty file when absent;
    None on success, Some errno on failure. *)
Definition sys_open_create (s : sys) (p : string) : M (option Z) := fun w =>
  match sys_open_creat s p with
  | Some e => Some (Some e, w)
  | None =>
      match w_fs w !! p with
      | Some _ => Some (None, w)
      | None => Some (None, set_fs (<[p := mkFile 0 ∅ 420]> (w_fs w)) w)
      end
  end.

(** ftruncate( fd, n ) == 0 *)
Definition sys_ftruncate_to (s : sys) (p : string) (n : Z) : M bool := fun w =>
  if sys_ftruncate s p n
  then Some (true, set_fs (<[p := truncate_file (file_of w p) n]> (w_fs w)) w)
  else Some (false, w).

(** mmap( NULL, n, PROT_READ | PROT_WRITE, MAP_SHARED, fd, 0 ); NULL for
    MAP_FAILED. *)
Definition sys_mmap_shared (s : sys) (p : string) (n : Z) : M ptr := fun w =>
  if sys_mmap s p n
  then Some ((w_next w, 0),
             mkWorld (w_fs w) (<[w_next w := mkMapping p n true true]> (w_maps w))
                     (w_next w + 1) (w_errno w) (w_page w))
  else Some (NULL, w).

(** msync( img, n, MS_SYNC ) >= 0 *)
Definition sys_msync_range (s : sys) (n : Z) : M bool := fun w =>
  Some (sys_msync s n, w).

(** The number of pages a range of [n] bytes spans. *)
Definition page_count (n pg : Z) : Z := (n + pg - 1) / pg.

(** munmap( img, n ): a zero length or an address that is not page aligned
    is refused (EINVAL) and releases nothing; a range from the start of a
    mapping over exactly its pages releases that mapping.  Releasing part of
    a mapping, or pages past its end (which may belong to whatever the kernel
    placed there), is not modelled: the run stops (None). *)
Definition sys_munmap (img : ptr) (n : Z) : M unit := fun w =>
  if (n =? 0) || negb (img.2 mod w_page w =? 0) then Some (tt, w) else
  match w_maps w !! img.1 with
  | Some m =>
      if (img.2 =? 0) && (page_count n (w_page w) =? page_count (m_len m) (w_page w))
      then Some (tt, set_maps (delete img.1 (w_maps w)) w)
      else None
  | None => None
  end.

(** ** ufs_image.c *)

(** A C path argument: None is the NULL pointer. *)
Definition ufsImageOpen (s : sys) (filePath : option string) : M ptr :=
  match filePath with
  | None => setErrno UFS_BAD_CALL ;;; retM NULL
  | Some p =>
      ex <-- sys_access p ;;
      if negb ex then setErrno UFS_IMAGE_DOES_NOT_EXIST ;;; retM NULL else
      fd <-- sys_open_rdwr s p ;;
      if negb fd then setErrno UFS_UNKNOWN_ERROR ;;; retM NULL else
      st <-- sys_fstat_size s p ;;
      match st with
      | None => setErrno UFS_UNKNOWN_ERROR ;;; retM NULL
      | Some st_size =>
          if st_size <? 8 then setErrno UFS_IMAGE_TOO_SMALL ;;; retM NULL else
          ret <-- sys_mmap_shared s p st_size ;;
          if bool_decide (ret = NULL) then setErrno UFS_UNKNOWN_ERROR ;;; retM NULL else
          store_u64 ret st_size ;;;
          setErrno UFS_NO_ERROR ;;;
          retM ret
      end
  end.

Definition ufsImageCreate (s : sys) (filePath : option string) (size : Z) : M ptr :=
  match filePath with
  | None => setErrno UFS_BAD_CALL ;;; retM NULL
  | Some p =>
      if size <? 8 then setErrno UFS_BAD_CALL ;;; retM NULL else
      fd <-- sys_open_create s p ;;
      match fd with
      | Some e =>
          setErrno (if e =? EACCES then UFS_CANT_CREATE_FILE else UFS_BAD_CALL) ;;;
          retM NULL
      | None =>
          ok <-- sys_ftruncate_to s p size ;;
          if negb ok then retM NULL else
          ret <-- sys_mmap_shared s p size ;;
          if bool_decide (ret = NULL) then setErrno UFS_UNKNOWN_ERROR ;;; retM NULL else
          store_u64 ret size ;;;
          setErrno UFS_NO_ERROR ;;;
          retM ret
      end
  end.

Definition ufsImageSync (s : sys) (image : ptr) : M bool :=
  size <-- load_u64 image ;;
  ok <-- sys_msync_range s size ;;
  if negb ok then setErrno UFS_IMAGE_COULD_NOT_SYNC ;;; retM false else
  retM true.

Definition ufsImageFree (image : ptr) : M unit :=
  size <-- load_u64 image ;;
  sys_munmap image size.

(** ** ufs_header.h / ufs_header.c *)

(** Layout on x86-64:
    struct ufsHeaderStruct  size 72, align 8
      (magicNumber @0 u32, version @4 u32, sizes[4] @8, offsets[4] @40);
    struct ufsFileStruct    size 16, align 8;
    struct ufsAreaStruct    size 16, align 8;
    struct ufsNodeStruct    size 48, align 8;
    char                    size 1,  align 1. *)
Definition sizeof_header : Z := 72.
Definition alignof_header : Z := 8.
Definition sizeof_file : Z := 16.
Definition alignof_file : Z := 8.
Definition sizeof_area : Z := 16.
Definition alignof_area : Z := 8.
Definition sizeof_node : Z := 48.
Definition alignof_node : Z := 8.
Definition sizeof_char : Z := 1.
Definition alignof_char : Z := 1.
Definition sizeof_u64 : Z := 8.

(** enum ufsTyepesEnum *)
Definition UFS_TYPES_FILE : nat := 0.
Definition UFS_TYPES_AREA : nat := 1.
Definition UFS_TYPES_NODE : nat := 2.
Definition UFS_TYPES_STRING : nat := 3.

Record ufsHeaderStruct := mkHeader {
  magicNumber : Z;
  version : Z;
  sizes : list Z;
  offsets : list Z
}.

Record ufsHeaderSizeRequestStruct := mkSizeRequest {
  numFiles : Z;
  numAreas : Z;
  numNodes : Z;
  numStrBytes : Z
}.

Definition ufsDefaultSizeRequest : ufsHeaderSizeRequestStruct :=
  mkSizeRequest 256 256 512 1024.

(** (((val) + ((align) - 1)) & ~((align) - 1)) on uint64_t *)
Definition roundToBoundary (val align : Z) : Z :=
  Z.land (add64 val (align - 1)) (Z.lnot (align - 1) mod u64_mod).

Definition resolveSize (pageSize : Z) (sizes : ufsHeaderSizeRequestStruct) : Z :=
  let size := sizeof_u64 in
  let size := roundToBoundary size alignof_header in
  let size := add64 size sizeof_header in
  let size := roundToBoundary size alignof_file in
  let size := add64 size (mul64 sizeof_file (numFiles sizes)) in
  let size := roundToBoundary size alignof_area in
  let size := add64 size (mul64 sizeof_area (numAreas sizes)) in
  let size := roundToBoundary size alignof_node in
  let size := add64 size (mul64 sizeof_node (numNodes sizes)) in
  let size := roundToBoundary size alignof_char in
  let size := add64 size (mul64 sizeof_char (numStrBytes sizes)) in
  roundToBoundary size (pageSize mod u64_mod).

Definition ufsHeaderGet (img : ptr) : ptr :=
  ptr_add img (roundToBoundary sizeof_u64 alignof_header).

(** Field addresses inside struct ufsHeaderStruct. *)
Definition magic_at (h : ptr) : ptr := h.
Definition version_at (h : ptr) : ptr := ptr_add h 4.
Definition sizes_at (h : ptr) (i : nat) : ptr := ptr_add h (8 + 8 * Z.of_nat i).
Definition offsets_at (h : ptr) (i : nat) : ptr := ptr_add h (40 + 8 * Z.of_nat i).

Definition mountHeader (img : ptr) (sizes : ufsHeaderSizeRequestStruct) : M ptr :=
  let header := ufsHeaderGet img in
  store_u32 (magic_at header) UFS_MAGIC_NUMBER ;;;
  store_u32 (version_at header) UFS_INDEX_VERSION ;;;
  store_u64 (sizes_at header UFS_TYPES_FILE) (numFiles sizes) ;;;
  store_u64 (sizes_at header UFS_TYPES_AREA) (numAreas sizes) ;;;
  store_u64 (sizes_at header UFS_TYPES_NODE) (numNodes sizes) ;;;
  store_u64 (sizes_at header UFS_TYPES_STRING) (numStrBytes sizes) ;;;
  let offset := sizeof_u64 in
  let offset := roundToBoundary offset alignof_header in
  let offset := add64 offset sizeof_header in
  let offset := roundToBoundary offset alignof_file in
  store_u64 (offsets_at header UFS_TYPES_FILE) offset ;;;
  let offset := add64 offset (mul64 sizeof_file (numFiles sizes)) in
  let offset := roundToBoundary offset alignof_area in
  store_u64 (offsets_at header UFS_TYPES_AREA) offset ;;;
  let offset := add64 offset (mul64 sizeof_area (numAreas sizes)) in
  let offset := roundToBoundary offset alignof_node in
  store_u64 (offsets_at header UFS_TYPES_NODE) offset ;;;
  let offset := add64 offset (mul64 sizeof_node (numNodes sizes)) in
  let offset := roundToBoundary offset alignof_char in
  store_u64 (offsets_at header UFS_TYPES_STRING) offset ;;;
  retM img.

Definition ufsHeaderValidate (img : ptr) : M ptr :=
  let header := ufsHeaderGet img in
  magic <-- load_u32 (magic_at header) ;;
  if negb (magic =? UFS_MAGIC_NUMBER)
  then setErrno UFS_IMAGE_IS_CORRUPTED ;;; retM NULL else
  ver <-- load_u32 (version_at header) ;;
  if negb (ver =? UFS_INDEX_VERSION)
  then setErrno UFS_VERSION_MISMATCH ;;; retM NULL else
  retM img.

Definition ufsHeaderInit (s : sys) (path : option string)
    (sizes : ufsHeaderSizeRequestStruct) : M ptr :=
  match path with
  | None => setErrno UFS_BAD_CALL ;;; retM NULL
  | Some p =>
      if (numFiles sizes =? 0) || (numAreas sizes =? 0) || (numNodes sizes =? 0)
         || (numStrBytes sizes =? 0)
      then setErrno UFS_BAD_CALL ;;; retM NULL else
      ex <-- sys_access p ;;
      if ex then setErrno UFS_BAD_CALL ;;; retM NULL else
      w <-- getW ;;
      ret <-- ufsImageCreate s path (resolveSize (w_page w) sizes) ;;
      if bool_decide (ret = NULL) then retM NULL else
      img <-- mountHeader ret sizes ;;
      ufsHeaderValidate img
  end.

(** The header as seen through a pointer to it (reading every field). *)
Definition load_header (h : ptr) : M ufsHeaderStruct :=
  m <-- load_u32 (magic_at h) ;;
  v <-- load_u32 (version_at h) ;;
  s0 <-- load_u64 (sizes_at h 0) ;; s1 <-- load_u64 (sizes_at h 1) ;;
  s2 <-- load_u64 (sizes_at h 2) ;; s3 <-- load_u64 (sizes_at h 3) ;;
  o0 <-- load_u64 (offsets_at h 0) ;; o1 <-- load_u64 (offsets_at h 1) ;;
  o2 <-- load_u64 (offsets_at h 2) ;; o3 <-- load_u64 (offsets_at h 3) ;;
  retM (mkHeader m v [s0; s1; s2; s3] [o0; o1; o2; o3]).

(** ** Bytes: loads after stores *)

Lemma store_byte_len f i v : f_len (store_byte f i v) = f_len f.
Proof. unfold store_byte. by destruct (_ && _). Qed.

Lemma store_le_len n f off v : f_len (store_le f off n v) = f_len f.
Proof.
  revert f off v. induction n as [|n IH]; intros f off v; simpl; [done|].
  by rewrite IH, store_byte_len.
Qed.

Lemma byte_at_store_byte_ne f i j v :
  i <> j -> byte_at (store_byte f i v) j = byte_at f j.
Proof.
  intros Hne. unfold byte_at, store_byte.
  destruct ((0 <=? i) && (i <? f_len f)); simpl; [|done].
  destruct ((0 <=? j) && (j <? f_len f)); [|done].
  by rewrite lookup_insert_ne.
Qed.

Lemma byte_at_store_byte_eq f i v :
  0 <= i < f_len f -> byte_at (store_byte f i v) i = v mod 256.
Proof.
  intros Hi. unfold byte_at, store_byte.
  assert (Hb : (0 <=? i) && (i <? f_len f) = true)
    by (apply andb_true_intro; split; [apply Z.leb_le|apply Z.ltb_lt]; lia).
  rewrite Hb; simpl. rewrite Hb, lookup_insert_eq. done.
Qed.

Lemma byte_at_store_le_out n f off v j :
  j < off \/ off + Z.of_nat n <= j ->
  byte_at (store_le f off n v) j = byte_at f j.
Proof.
  revert f off v. induction n as [|n IH]; intros f off v Hj; simpl; [done|].
  rewrite IH by lia. apply byte_at_store_byte_ne. lia.
Qed.

Lemma load_le_ext f g off n :
  (forall j, off <= j < off + Z.of_nat n -> byte_at f j = byte_at g j) ->
  load_le f off n = load_le g off n.
Proof.
  revert off. induction n as [|n IH]; intros off H; simpl; [done|].
  rewrite (H off) by lia. rewrite (IH (off + 1)); [done|]. intros j Hj. apply H. lia.
Qed.

(** A load that does not overlap a store reads what was there before. *)
Lemma load_le_store_le_other f off n v off' m :
  (off' + Z.of_nat m <=? off) || (off + Z.of_nat n <=? off') = true ->
  load_le (store_le f off n v) off' m = load_le f off' m.
Proof.
  intros H. apply load_le_ext. intros j Hj. apply byte_at_store_le_out.
  apply orb_true_iff in H as [H|H]; apply Z.leb_le in H; lia.
Qed.

Lemma mod_split_256 v c :
  0 < c -> v mod 256 + 256 * ((v / 256) mod c) = v mod (256 * c).
Proof.
  intros Hc. apply Z.mod_unique with (q := (v / 256) / c).
  - left. pose proof (Z.mod_pos_bound v 256 ltac:(lia)).
    pose proof (Z.mod_pos_bound (v / 256) c Hc). lia.
  - pose proof (Z.div_mod v 256 ltac:(lia)).
    pose proof (Z.div_mod (v / 256) c ltac:(lia)). lia.
Qed.

(** A load of exactly the bytes of an in-bounds store reads the stored value
    modulo the width. *)
Lemma load_le_store_le_same f off n v :
  0 <= off -> off + Z.of_nat n <= f_len f ->
  load_le (store_le f off n v) off n = v mod 2 ^ (8 * Z.of_nat n).
Proof.
  revert f off v. induction n as [|n IH]; intros f off v H0 Hn; simpl.
  - by rewrite Z.mod_1_r.
  - rewrite byte_at_store_le_out by lia.
    rewrite byte_at_store_byte_eq by lia.
    rewrite IH by (rewrite ?store_byte_len; lia).
    replace (8 * Z.of_nat (S n)) with (8 + 8 * Z.of_nat n) by lia.
    rewrite Z.pow_add_r by lia. apply mod_split_256.
    apply Z.pow_pos_nonneg; lia.
Qed.

(** ** Rounding up to a power of two *)

Definition align_up (v a : Z) : Z := (v + a - 1) / a * a.

Lemma align_up_ge v a : 0 < a -> v <= align_up v a.
Proof.
  intros Ha. unfold align_up.
  pose proof (Z.mod_pos_bound (v + a - 1) a Ha).
  pose proof (Z.div_mod (v + a - 1) a ltac:(lia)). nia.
Qed.

Lemma land_lnot_pow2 x k :
  0 <= k -> Z.land x (Z.lnot (2 ^ k - 1)) = x / 2 ^ k * 2 ^ k.
Proof.
  intros Hk. replace (2 ^ k - 1) with (Z.ones k) by (rewrite Z.ones_equiv; lia).
  rewrite <- Z.ldiff_land, Z.ldiff_ones_r by lia.
  rewrite Z.shiftl_mul_pow2, Z.shiftr_div_pow2 by lia. done.
Qed.

Lemma roundToBoundary_pow2 v k :
  0 <= k <= 64 -> 0 <= v -> v + 2 ^ k - 1 < u64_mod ->
  roundToBoundary v (2 ^ k) = align_up v (2 ^ k).
Proof.
  intros Hk Hv Hlt. unfold roundToBoundary, add64, align_up, u64_mod in *.
  rewrite (Z.mod_small (v + _)) by (pose proof (Z.pow_pos_nonneg 2 k); lia).
  rewrite <- Z.land_ones by lia.
  rewrite (Z.land_comm (Z.lnot _)), Z.land_assoc, Z.land_ones by lia.
  rewrite Z.mod_small by (pose proof (Z.pow_pos_nonneg 2 k); lia).
  replace (v + (2 ^ k - 1)) with (v + 2 ^ k - 1) by lia.
  apply land_lnot_pow2; lia.
Qed.

(** ** The image length the spec describes, in unbounded arithmetic *)

(** Start at 8 (the length prelude), align up to the header's alignment, add
    the header size, then for each of the four tables align up to the
    element's alignment and add slot size times capacity; round the total up
    to a page. *)
Definition image_length (pageSize : Z) (sizes : ufsHeaderSizeRequestStruct) : Z :=
  let s := align_up 8 alignof_header + sizeof_header in
  let s := align_up s alignof_file + sizeof_file * numFiles sizes in
  let s := align_up s alignof_area + sizeof_area * numAreas sizes in
  let s := align_up s alignof_node + sizeof_node * numNodes sizes in
  let s := align_up s alignof_char + sizeof_char * numStrBytes sizes in
  align_up s pageSize.

(** The four table offsets of that layout. *)
Definition table_offsets (sizes : ufsHeaderSizeRequestStruct) : list Z :=
  let o0 := align_up (align_up 8 alignof_header + sizeof_header) alignof_file in
  let o1 := align_up (o0 + sizeof_file * numFiles sizes) alignof_area in
  let o2 := align_up (o1 + sizeof_area * numAreas sizes) alignof_node in
  let o3 := align_up (o2 + sizeof_node * numNodes sizes) alignof_char in
  [o0; o1; o2; o3].

Definition u64_ok (v : Z) : Prop := 0 <= v < u64_mod.

Definition request_ok (sizes : ufsHeaderSizeRequestStruct) : Prop :=
  u64_ok (numFiles sizes) /\ u64_ok (numAreas sizes) /\
  u64_ok (numNodes sizes) /\ u64_ok (numStrBytes sizes).

Definition page_ok (pageSize : Z) : Prop :=
  exists k, 0 <= k < 64 /\ pageSize = 2 ^ k.

Lemma align_up_bound v a k :
  0 <= k <= 64 -> a = 2 ^ k -> 0 <= v -> align_up v a < u64_mod -> v + a - 1 < u64_mod.
Proof.
  intros Hk -> Hv Hlt. unfold align_up, u64_mod in *.
  destruct (Z_lt_le_dec (v + 2 ^ k - 1) (2 ^ 64)) as [|Hge]; [done|].
  exfalso.
  assert (Hp : 2 ^ 64 = 2 ^ (64 - k) * 2 ^ k) by (rewrite <- Z.pow_add_r; f_equal; lia).
  assert (Hpos : 0 < 2 ^ k) by (apply Z.pow_pos_nonneg; lia).
  assert (Hd : 2 ^ (64 - k) <= (v + 2 ^ k - 1) / 2 ^ k).
  { rewrite <- (Z.div_mul (2 ^ (64 - k)) (2 ^ k)) by lia.
    apply Z.div_le_mono; lia. }
  nia.
Qed.

Lemma step_exact v a k c n :
  0 <= k <= 64 -> a = 2 ^ k -> 0 <= v -> 0 <= c -> 0 <= n ->
  align_up v a + c * n < u64_mod ->
  add64 (roundToBoundary v a) (mul64 c n) = align_up v a + c * n.
Proof.
  intros Hk -> Hv Hc Hn Hlt.
  assert (Hpos : 0 < 2 ^ k) by (apply Z.pow_pos_nonneg; lia).
  assert (Hal := align_up_ge v (2 ^ k) Hpos).
  assert (Hcn : 0 <= c * n) by lia.
  rewrite roundToBoundary_pow2 by (try lia; apply (align_up_bound v (2 ^ k) k); lia).
  unfold add64, mul64.
  rewrite (Z.mod_small (c * n)) by lia.
  apply Z.mod_small. lia.
Qed.

Lemma resolveSize_exact pageSize sizes :
  page_ok pageSize -> request_ok sizes -> image_length pageSize sizes < u64_mod ->
  resolveSize pageSize sizes = image_length pageSize sizes.
Proof.
  intros [k [Hk ->]] (H1 & H2 & H3 & H4) Hlen. unfold u64_ok in *.
  unfold resolveSize, image_length in *.
  change (add64 (roundToBoundary sizeof_u64 alignof_header) sizeof_header) with 80.
  change (align_up 8 alignof_header + sizeof_header) with 80 in *.
  unfold alignof_file, alignof_area, alignof_node, alignof_char,
    sizeof_file, sizeof_area, sizeof_node, sizeof_char in *.
  set (m1 := align_up 80 8 + 16 * numFiles sizes) in *.
  set (m2 := align_up m1 8 + 16 * numAreas sizes) in *.
  set (m3 := align_up m2 8 + 48 * numNodes sizes) in *.
  set (m4 := align_up m3 1 + 1 * numStrBytes sizes) in *.
  assert (Hpos : 0 < 2 ^ k) by (apply Z.pow_pos_nonneg; lia).
  pose proof (align_up_ge m4 (2 ^ k) Hpos).
  pose proof (align_up_ge m3 1 ltac:(lia)).
  pose proof (align_up_ge m2 8 ltac:(lia)).
  pose proof (align_up_ge m1 8 ltac:(lia)).
  pose proof (align_up_ge 80 8 ltac:(lia)).
  assert (0 <= m1) by (unfold m1; lia).
  assert (m1 <= m2) by (unfold m2; lia).
  assert (m2 <= m3) by (unfold m3; lia).
  assert (m3 <= m4) by (unfold m4; lia).
  rewrite (step_exact 80 8 3) by (reflexivity || lia). fold m1.
  rewrite (step_exact m1 8 3) by (reflexivity || lia). fold m2.
  rewrite (step_exact m2 8 3) by (reflexivity || lia). fold m3.
  rewrite (step_exact m3 1 0) by (reflexivity || lia). fold m4.
  rewrite (Z.mod_small (2 ^ k)) by (unfold u64_mod; split; [lia|];
    apply Z.pow_lt_mono_r; lia).
  apply roundToBoundary_pow2; [lia|lia|].
  apply (align_up_bound m4 (2 ^ k) k); lia.
Qed.

(** ** Running the primitives on a mapped image *)

Definition mapped (w : world) (b : Z) (m : mapping) : Prop :=
  b <> 0 /\ w_maps w !! b = Some m.

Lemma mem_load_mapped w b m o n :
  mapped w b m ->
  mem_load (b, o) n w = Some (load_le (file_of w (m_path m)) o n, w).
Proof.
  intros [Hb Hm]. unfold mem_load. simpl.
  rewrite (proj2 (Z.eqb_neq b 0) Hb), Hm. done.
Qed.

Lemma mem_store_mapped w b m o n v :
  mapped w b m -> is_Some (w_fs w !! m_path m) ->
  mem_store (b, o) n v w =
    Some (tt, set_fs (<[m_path m := store_le (file_of w (m_path m)) o n v]> (w_fs w)) w).
Proof.
  intros [Hb Hm] [f Hf]. unfold mem_store, file_of. simpl.
  rewrite (proj2 (Z.eqb_neq b 0) Hb), Hm, Hf. done.
Qed.

Lemma mem_load_null n w : mem_load NULL n w = None.
Proof. done. Qed.

Lemma set_errno_same w : set_errno (w_errno w) w = w.
Proof. by destruct w. Qed.

Lemma set_fs_set_fs a c w : set_fs a (set_fs c w) = set_fs a w.
Proof. by destruct w. Qed.

Lemma load_header_mapped w b m o :
  mapped w b m ->
  load_header (b, o) w =
    let f := file_of w (m_path m) in
    Some (mkHeader (load_le f o 4) (load_le f (o + 4) 4)
            [load_le f (o + 8) 8; load_le f (o + 16) 8;
             load_le f (o + 24) 8; load_le f (o + 32) 8]
            [load_le f (o + 40) 8; load_le f (o + 48) 8;
             load_le f (o + 56) 8; load_le f (o + 64) 8], w).
Proof.
  intros Hmap. unfold load_header, bindM, retM, load_u32, load_u64,
    magic_at, version_at, sizes_at, offsets_at, ptr_add. simpl.
  rewrite !(mem_load_mapped w b m) by done. done.
Qed.

Lemma ufsHeaderValidate_run w b o m :
  mapped w b m ->
  let f := file_of w (m_path m) in
  ufsHeaderValidate (b, o) w =
    if load_le f (o + 8) 4 =? UFS_MAGIC_NUMBER then
      if load_le f (o + 8 + 4) 4 =? UFS_INDEX_VERSION then Some ((b, o), w)
      else Some (NULL, set_errno UFS_VERSION_MISMATCH w)
    else Some (NULL, set_errno UFS_IMAGE_IS_CORRUPTED w).
Proof.
  intros Hmap f. unfold ufsHeaderValidate, bindM, retM, setErrno, load_u32,
    magic_at, version_at, ufsHeaderGet, ptr_add. cbn -[load_le].
  rewrite (mem_load_mapped w b m) by done.
  unfold f. destruct (load_le _ _ _ =? UFS_MAGIC_NUMBER); cbn -[load_le]; [|done].
  rewrite (mem_load_mapped w b m) by done.
  by destruct (load_le _ _ _ =? UFS_INDEX_VERSION).
Qed.

(** ** Sample worlds and system-call outcomes *)

(** A process with no files and no mappings, 4 KiB pages. *)
Definition w0 : world := mkWorld ∅ ∅ 1 UFS_NO_ERROR 4096.

(** A process holding one 128-byte image "/tmp/img" mapped at block 1. *)
Definition w_img : world :=
  mkWorld {[ "/tmp/img" := mkFile 128 ∅ 420 ]}
          {[ 1 := mkMapping "/tmp/img" 128 true true ]} 2 UFS_NO_ERROR 4096.

(** Every system call succeeds. *)
Definition sys_ok : sys :=
  mkSys (fun _ => true) (fun _ => None) (fun _ => true)
        (fun _ _ => true) (fun _ _ => true) (fun _ => true).

(** open( O_CREAT ) is refused with EACCES, everything else succeeds. *)
Definition sys_eacces : sys :=
  mkSys (fun _ => true) (fun _ => Some EACCES) (fun _ => true)
        (fun _ _ => true) (fun _ _ => true) (fun _ => true).

Example resolveSize_small : resolveSize 4096 (mkSizeRequest 1 1 1 64) = 4096.
Proof. vm_compute. reflexivity. Qed.

Example header_roundtrip_small :
  option_map fst
   (bindM (ufsHeaderInit sys_ok (Some "/tmp/img") (mkSizeRequest 1 2 3 64))
      (fun _ => bindM (ufsImageOpen sys_ok (Some "/tmp/img"))
                      (fun i => load_header (ufsHeaderGet i))) w0)
  = Some (mkHeader UFS_MAGIC_NUMBER 1 [1; 2; 3; 64] [80; 96; 128; 272]).
Proof. vm_compute. reflexivity. Qed.

(** ** Claims about ufsHeaderValidate *)

(** C2: on a mapped image, ufsHeaderValidate reads the header and its outcome
    is decided by the magic number and the version alone: the image itself
    when both match, NULL with IMAGE_IS_CORRUPTED for a wrong magic, NULL with
    VERSION_MISMATCH for a right magic and a wrong version; it returns the
    image exactly when both fields match. *)
Theorem ufsHeaderValidate_magic_version w img m :
  mapped w img.1 m ->
  exists h : ufsHeaderStruct,
    load_header (ufsHeaderGet img) w = Some (h, w) /\
    ufsHeaderValidate img w =
      (if magicNumber h =? UFS_MAGIC_NUMBER then
         if version h =? UFS_INDEX_VERSION then Some (img, w)
         else Some (NULL, set_errno UFS_VERSION_MISMATCH w)
       else Some (NULL, set_errno UFS_IMAGE_IS_CORRUPTED w)) /\
    (ufsHeaderValidate img w = Some (img, w) <->
       magicNumber h = UFS_MAGIC_NUMBER /\ version h = UFS_INDEX_VERSION).
Proof.
  destruct img as [b o]. cbn [fst]. intros Hmap.
  unfold ufsHeaderGet, ptr_add. cbn [fst snd].
  change (roundToBoundary sizeof_u64 alignof_header) with 8.
  rewrite (load_header_mapped w b m) by done.
  rewrite (ufsHeaderValidate_run w b o m Hmap).
  cbv beta zeta. set (f := file_of w (m_path m)).
  eexists. split; [reflexivity|]. cbn [magicNumber version].
  split; [done|].
  assert (Hnn : (b, o) <> NULL) by (destruct Hmap as [Hb _]; unfold NULL; congruence).
  destruct (load_le f (o + 8) 4 =? UFS_MAGIC_NUMBER) eqn:E1;
    [apply Z.eqb_eq in E1 | apply Z.eqb_neq in E1];
  destruct (load_le f (o + 8 + 4) 4 =? UFS_INDEX_VERSION) eqn:E2;
    [apply Z.eqb_eq in E2 | apply Z.eqb_neq in E2 | |];
  split; intros H;
  try (split; assumption); try done;
  try (destruct H; contradiction);
  congruence.
Qed.

Lemma ufsHeaderValidate_magic_version_witness :
  mapped w_img 1 (mkMapping "/tmp/img" 128 true true) /\
  exists h : ufsHeaderStruct,
    load_header (ufsHeaderGet (1, 0)) w_img = Some (h, w_img) /\
    ufsHeaderValidate (1, 0) w_img =
      (if magicNumber h =? UFS_MAGIC_NUMBER then
         if version h =? UFS_INDEX_VERSION then Some ((1, 0), w_img)
         else Some (NULL, set_errno UFS_VERSION_MISMATCH w_img)
       else Some (NULL, set_errno UFS_IMAGE_IS_CORRUPTED w_img)) /\
    (ufsHeaderValidate (1, 0) w_img = Some ((1, 0), w_img) <->
       magicNumber h = UFS_MAGIC_NUMBER /\ version h = UFS_INDEX_VERSION).
Proof.
  assert (H : mapped w_img 1 (mkMapping "/tmp/img" 128 true true))
    by (split; [discriminate|reflexivity]).
  split; [exact H|].
  exact (ufsHeaderValidate_magic_version w_img (1, 0) _ H).
Defined.

(** C10: ufsHeaderValidate never writes: on every image it either faults
    (the pointer is not mapped) or returns the image or NULL with a world
    that differs from the one it was given at most in ufsErrno, so no byte of
    any file changes and no mapping is released. *)
Theorem ufsHeaderValidate_no_write img w :
  ufsHeaderValidate img w = None \/
  exists r e, ufsHeaderValidate img w = Some (r, set_errno e w) /\
              (r = img \/ r = NULL).
Proof.
  destruct img as [b o].
  destruct (decide (b = 0)) as [->|Hb].
  { left. reflexivity. }
  destruct (w_maps w !! b) as [m|] eqn:Hm.
  - right. rewrite (ufsHeaderValidate_run w b o m) by done. cbv beta zeta.
    destruct (load_le (file_of w (m_path m)) (o + 8) 4 =? UFS_MAGIC_NUMBER);
      [destruct (load_le (file_of w (m_path m)) (o + 8 + 4) 4 =? UFS_INDEX_VERSION)|].
    + exists (b, o), (w_errno w). rewrite set_errno_same. auto.
    + eauto.
    + eauto.
  - left. unfold ufsHeaderValidate, bindM, load_u32, mem_load. simpl.
    rewrite (proj2 (Z.eqb_neq b 0) Hb), Hm. done.
Qed.

(** ** Claims about argument checks *)

(** C9: ufsImageOpen( NULL ) returns NULL with BAD_CALL, whatever the system
    calls would do and without touching the file system or the mappings. *)
Theorem ufsImageOpen_null_path s w :
  ufsImageOpen s None w = Some (NULL, set_errno UFS_BAD_CALL w).
Proof. reflexivity. Qed.

(** C7: ufsHeaderInit answers BAD_CALL and changes nothing but ufsErrno (no
    file created, no mapping made) when the path is NULL, a capacity is zero
    or the path already exists; ufsImageCreate answers BAD_CALL the same way
    for a NULL path or a size below 8, and CANT_CREATE_FILE when open( O_CREAT )
    is refused for lack of permission (EACCES). *)
Theorem ufs_bad_call_rejects s w :
  (forall path sizes,
     path = None \/ numFiles sizes = 0 \/ numAreas sizes = 0 \/
     numNodes sizes = 0 \/ numStrBytes sizes = 0 \/
     (exists p, path = Some p /\ is_Some (w_fs w !! p)) ->
     ufsHeaderInit s path sizes w = Some (NULL, set_errno UFS_BAD_CALL w)) /\
  (forall path size, path = None \/ size < 8 ->
     ufsImageCreate s path size w = Some (NULL, set_errno UFS_BAD_CALL w)) /\
  (forall p size, 8 <= size -> sys_open_creat s p = Some EACCES ->
     ufsImageCreate s (Some p) size w =
       Some (NULL, set_errno UFS_CANT_CREATE_FILE w)).
Proof.
  split; [|split].
  - intros [p|] sizes H; [|reflexivity].
    unfold ufsHeaderInit.
    destruct ((numFiles sizes =? 0) || (numAreas sizes =? 0) || (numNodes sizes =? 0)
              || (numStrBytes sizes =? 0)) eqn:Hc; [reflexivity|].
    rewrite !orb_false_iff, !Z.eqb_neq in Hc.
    destruct H as [H|[H|[H|[H|[H|[p' [Hp Hex]]]]]]]; try discriminate; try (exfalso; tauto).
    injection Hp as <-.
    unfold bindM, sys_access. rewrite (bool_decide_eq_true_2 _ Hex). reflexivity.
  - intros [p|] size H; [|reflexivity].
    destruct H as [H|H]; [discriminate|].
    unfold ufsImageCreate. rewrite (proj2 (Z.ltb_lt size 8) H). reflexivity.
  - intros p size Hs He.
    unfold ufsImageCreate, bindM, sys_open_create.
    rewrite (proj2 (Z.ltb_ge size 8) Hs), He. reflexivity.
Qed.

Lemma ufs_bad_call_rejects_witness :
  ufsHeaderInit sys_ok None ufsDefaultSizeRequest w0 = Some (NULL, set_errno UFS_BAD_CALL w0) /\
  ufsHeaderInit sys_ok (Some "/tmp/img") (mkSizeRequest 0 0 0 0) w0 =
    Some (NULL, set_errno UFS_BAD_CALL w0) /\
  ufsHeaderInit sys_ok (Some "/tmp/img") ufsDefaultSizeRequest w_img =
    Some (NULL, set_errno UFS_BAD_CALL w_img) /\
  ufsImageCreate sys_ok (Some "/tmp/img") 4 w0 = Some (NULL, set_errno UFS_BAD_CALL w0) /\
  ufsImageCreate sys_ok None 128 w0 = Some (NULL, set_errno UFS_BAD_CALL w0) /\
  ufsImageCreate sys_eacces (Some "/cant_create_here") 128 w0 =
    Some (NULL, set_errno UFS_CANT_CREATE_FILE w0).
Proof.
  split; [apply (proj1 (ufs_bad_call_rejects sys_ok w0)); left; reflexivity|].
  split; [apply (proj1 (ufs_bad_call_rejects sys_ok w0)); right; left; reflexivity|].
  split; [apply (proj1 (ufs_bad_call_rejects sys_ok w_img));
          do 5 right; exists "/tmp/img"; split; [reflexivity|eexists; reflexivity]|].
  split; [apply (proj1 (proj2 (ufs_bad_call_rejects sys_ok w0))); right; lia|].
  split; [apply (proj1 (proj2 (ufs_bad_call_rejects sys_ok w0))); left; reflexivity|].
  apply (proj2 (proj2 (ufs_bad_call_rejects sys_eacces w0))); [lia|reflexivity].
Defined.

(** ** Running ufsImageOpen *)

Lemma ufsImageOpen_run s p w :
  0 < w_next w ->
  ufsImageOpen s (Some p) w =
    match w_fs w !! p with
    | None => Some (NULL, set_errno UFS_IMAGE_DOES_NOT_EXIST w)
    | Some f =>
        if negb (sys_open_rw s p) then Some (NULL, set_errno UFS_UNKNOWN_ERROR w) else
        if negb (sys_fstat s p) then Some (NULL, set_errno UFS_UNKNOWN_ERROR w) else
        if f_len f <? 8 then Some (NULL, set_errno UFS_IMAGE_TOO_SMALL w) else
        if negb (sys_mmap s p (f_len f)) then Some (NULL, set_errno UFS_UNKNOWN_ERROR w) else
        Some ((w_next w, 0),
              mkWorld (<[p := store_le f 0 8 (f_len f)]> (w_fs w))
                      (<[w_next w := mkMapping p (f_len f) true true]> (w_maps w))
                      (w_next w + 1) UFS_NO_ERROR (w_page w))
    end.
Proof.
  intros Hn.
  unfold ufsImageOpen, bindM, retM, setErrno, sys_access, sys_open_rdwr,
    sys_fstat_size, sys_mmap_shared, store_u64, mem_store.
  destruct (w_fs w !! p) as [f|] eqn:Hf; cbn -[load_le store_le]; [|done].
  rewrite Hf.
  destruct (sys_open_rw s p); cbn -[load_le store_le]; [|done].
  destruct (sys_fstat s p); cbn -[load_le store_le]; [|done].
  rewrite Hf. cbn -[load_le store_le].
  destruct (f_len f <? 8); cbn -[load_le store_le]; [done|].
  destruct (sys_mmap s p (f_len f)); cbn -[load_le store_le]; [|done].
  rewrite bool_decide_false by (unfold NULL; intros [=]; lia).
  rewrite (proj2 (Z.eqb_neq (w_next w) 0)) by lia.
  cbn [w_maps w_fs]. rewrite lookup_insert_eq. cbn [m_path]. rewrite Hf.
  reflexivity.
Qed.

(** C6: ufsImageOpen on a path fails with DOES_NOT_EXIST when no file is
    there, with IMAGE_TOO_SMALL when the file is shorter than 8 bytes, with
    UNKNOWN when open, fstat or mmap fails (both codes are -12 in ufs_defs.h),
    and otherwise returns a fresh read-write shared mapping of the whole file
    whose first 8 bytes now hold the length of the file on disk, the other
    bytes and the length of the file being unchanged. *)
Theorem ufsImageOpen_outcomes s p w :
  0 < w_next w ->
  (w_fs w !! p = None ->
     ufsImageOpen s (Some p) w = Some (NULL, set_errno UFS_IMAGE_DOES_NOT_EXIST w)) /\
  (forall f, w_fs w !! p = Some f -> f_len f < 8 ->
     ufsImageOpen s (Some p) w = Some (NULL, set_errno UFS_IMAGE_TOO_SMALL w)) /\
  (forall f, w_fs w !! p = Some f ->
     sys_open_rw s p = false \/ sys_fstat s p = false \/ sys_mmap s p (f_len f) = false ->
     ufsImageOpen s (Some p) w = Some (NULL, set_errno UFS_UNKNOWN_ERROR w)) /\
  (forall f, w_fs w !! p = Some f -> 8 <= f_len f < u64_mod ->
     sys_open_rw s p = true -> sys_fstat s p = true -> sys_mmap s p (f_len f) = true ->
     exists img w',
       ufsImageOpen s (Some p) w = Some (img, w') /\ img <> NULL /\ img.2 = 0 /\
       w_maps w' !! img.1 = Some (mkMapping p (f_len f) true true) /\
       load_u64 img w' = Some (f_len f, w') /\
       f_len (file_of w' p) = f_len f /\
       (forall j, 8 <= j -> byte_at (file_of w' p) j = byte_at f j) /\
       w_errno w' = UFS_NO_ERROR).
Proof.
  intros Hn. rewrite (ufsImageOpen_run s p w Hn).
  split; [|split; [|split]].
  - intros ->. reflexivity.
  - intros f -> Hl. rewrite (proj2 (Z.ltb_lt _ 8) Hl).
    by destruct (sys_open_rw s p), (sys_fstat s p).
  - intros f -> H.
    destruct H as [H | [H | H]]; rewrite H;
    destruct (f_len f <? 8); cbn; try reflexivity;
    by destruct (sys_open_rw s p), (sys_fstat s p).
  - intros f -> Hl Ho Hs Hm.
    rewrite Ho, Hs, Hm, (proj2 (Z.ltb_ge _ 8) (proj1 Hl)). cbn [negb].
    eexists _, _. split; [reflexivity|].
    assert (Hfile : file_of (mkWorld (<[p := store_le f 0 8 (f_len f)]> (w_fs w))
                      (<[w_next w := mkMapping p (f_len f) true true]> (w_maps w))
                      (w_next w + 1) UFS_NO_ERROR (w_page w)) p = store_le f 0 8 (f_len f))
      by (unfold file_of; cbn; by rewrite lookup_insert_eq).
    split; [unfold NULL; intros [=]; lia|].
    split; [reflexivity|].
    split; [cbn; by rewrite lookup_insert_eq|].
    split.
    { unfold load_u64. rewrite (mem_load_mapped _ _ (mkMapping p (f_len f) true true)).
      - cbn [m_path]. rewrite Hfile, load_le_store_le_same by (simpl; lia).
        rewrite Z.mod_small by (unfold u64_mod in Hl; simpl; lia). reflexivity.
      - split; [lia|]. cbn. by rewrite lookup_insert_eq. }
    rewrite Hfile. split; [apply store_le_len|].
    split; [|reflexivity].
    intros j Hj. apply byte_at_store_le_out. simpl. lia.
Qed.

Lemma ufsImageOpen_outcomes_witness :
  ufsImageOpen sys_ok (Some "/nope") w_img =
    Some (NULL, set_errno UFS_IMAGE_DOES_NOT_EXIST w_img) /\
  exists img w',
    ufsImageOpen sys_ok (Some "/tmp/img") w_img = Some (img, w') /\ img <> NULL /\
    img.2 = 0 /\
    w_maps w' !! img.1 = Some (mkMapping "/tmp/img" 128 true true) /\
    load_u64 img w' = Some (128, w') /\
    f_len (file_of w' "/tmp/img") = 128 /\
    (forall j, 8 <= j -> byte_at (file_of w' "/tmp/img") j = byte_at (mkFile 128 ∅ 420) j) /\
    w_errno w' = UFS_NO_ERROR.
Proof.
  assert (Hn : 0 < w_next w_img) by (simpl; lia).
  destruct (ufsImageOpen_outcomes sys_ok "/nope" w_img Hn) as [Hd _].
  destruct (ufsImageOpen_outcomes sys_ok "/tmp/img" w_img Hn) as [_ [_ [_ Hok]]].
  split; [apply Hd; reflexivity|].
  apply (Hok (mkFile 128 ∅ 420)); [reflexivity|unfold u64_mod; simpl; lia
                                  |reflexivity|reflexivity|reflexivity].
Defined.

(** ** ufsImageFree *)



(** A process holding one 128-byte image mapped at block 1 whose length word
    (byte 0) holds 128. *)
Definition w_len : world :=
  mkWorld {[ "/tmp/img" := mkFile 128 {[ 0 := 128 ]} 420 ]}
          {[ 1 := mkMapping "/tmp/img" 128 true true ]} 2 UFS_NO_ERROR 4096.


(** ** Running ufsImageCreate *)

(** The file open( O_CREAT ) leaves at a path: the one there, or a new empty
    file with mode 0644. *)
Definition created_file (w : world) (p : string) : file :=
  default (mkFile 0 ∅ 420) (w_fs w !! p).

Definition after_open_create (w : world) (p : string) : world :=
  match w_fs w !! p with
  | Some _ => w
  | None => set_fs (<[p := mkFile 0 ∅ 420]> (w_fs w)) w
  end.

Lemma ufsImageCreate_run s p size w :
  0 < w_next w -> 8 <= size ->
  ufsImageCreate s (Some p) size w =
    match sys_open_creat s p with
    | Some e =>
        Some (NULL, set_errno (if e =? EACCES then UFS_CANT_CREATE_FILE else UFS_BAD_CALL) w)
    | None =>
        if negb (sys_ftruncate s p size) then Some (NULL, after_open_create w p) else
        let F := truncate_file (created_file w p) size in
        if negb (sys_mmap s p size)
        then Some (NULL, set_errno UFS_UNKNOWN_ERROR (set_fs (<[p := F]> (w_fs w)) w)) else
        Some ((w_next w, 0),
              mkWorld (<[p := store_le F 0 8 size]> (w_fs w))
                      (<[w_next w := mkMapping p size true true]> (w_maps w))
                      (w_next w + 1) UFS_NO_ERROR (w_page w))
    end.
Proof.
  intros Hn Hs.
  unfold ufsImageCreate. rewrite (proj2 (Z.ltb_ge size 8) Hs).
  unfold bindM, retM, setErrno, sys_open_create, sys_ftruncate_to,
    sys_mmap_shared, store_u64, mem_store.
  destruct (sys_open_creat s p) as [e|]; [reflexivity|].
  unfold after_open_create, created_file, file_of.
  destruct (w_fs w !! p) as [f|] eqn:Hf;
  destruct (sys_ftruncate s p size); cbn [negb]; try reflexivity;
  destruct (sys_mmap s p size); cbn [negb];
  cbn [w_maps w_fs w_next w_errno w_page set_fs set_errno m_path fst snd id];
  rewrite ?bool_decide_false by (unfold NULL; intros [=]; lia);
  rewrite ?(proj2 (Z.eqb_neq (w_next w) 0)) by lia;
  cbn [w_maps w_fs w_next w_errno w_page set_fs set_errno m_path fst snd id];
  rewrite ?lookup_insert_eq;
  cbn [w_maps w_fs w_next w_errno w_page set_fs set_errno m_path fst snd id];
  rewrite ?lookup_insert_eq, ?Hf;
  cbn [w_maps w_fs w_next w_errno w_page set_fs set_errno m_path fst snd id default];
  rewrite ?insert_insert_eq; try reflexivity.
Qed.

(** ** Running mountHeader *)

(** The bytes mountHeader writes into the file behind an image mapped at
    offset 0: the header sits at offset 8 (roundToBoundary( 8, 8 )). *)
Definition mount_file (f : file) (sizes : ufsHeaderSizeRequestStruct) : file :=
  let f := store_le f 8 4 UFS_MAGIC_NUMBER in
  let f := store_le f 12 4 UFS_INDEX_VERSION in
  let f := store_le f 16 8 (numFiles sizes) in
  let f := store_le f 24 8 (numAreas sizes) in
  let f := store_le f 32 8 (numNodes sizes) in
  let f := store_le f 40 8 (numStrBytes sizes) in
  let offset := sizeof_u64 in
  let offset := roundToBoundary offset alignof_header in
  let offset := add64 offset sizeof_header in
  let offset := roundToBoundary offset alignof_file in
  let f := store_le f 48 8 offset in
  let offset := add64 offset (mul64 sizeof_file (numFiles sizes)) in
  let offset := roundToBoundary offset alignof_area in
  let f := store_le f 56 8 offset in
  let offset := add64 offset (mul64 sizeof_area (numAreas sizes)) in
  let offset := roundToBoundary offset alignof_node in
  let f := store_le f 64 8 offset in
  let offset := add64 offset (mul64 sizeof_node (numNodes sizes)) in
  let offset := roundToBoundary offset alignof_char in
  store_le f 72 8 offset.

Ltac run_world :=
  cbn [w_maps w_fs w_next w_errno w_page set_fs set_errno m_path fst snd
       ptr_add ufsHeaderGet magic_at version_at sizes_at offsets_at].

Lemma mountHeader_run w b m f sizes :
  mapped w b m -> w_fs w !! m_path m = Some f ->
  mountHeader (b, 0) sizes w =
    Some ((b, 0), set_fs (<[m_path m := mount_file f sizes]> (w_fs w)) w).
Proof.
  intros [Hb Hm] Hf.
  assert (Hb0 : (b =? 0) = false) by (apply Z.eqb_neq; done).
  unfold mountHeader, bindM, retM, store_u32, store_u64, mem_store.
  repeat (run_world; first [rewrite Hb0 | rewrite Hm | rewrite lookup_insert_eq | rewrite Hf]).
  run_world. rewrite !set_fs_set_fs, !insert_insert_eq.
  change (0 + roundToBoundary sizeof_u64 alignof_header) with 8.
  cbn [UFS_TYPES_FILE UFS_TYPES_AREA UFS_TYPES_NODE UFS_TYPES_STRING Z.of_nat].
  change (8 + 4) with 12. change (8 + (8 + 8 * 0)) with 16.
  change (8 + (8 + 8 * 1)) with 24. change (8 + (8 + 8 * 2)) with 32.
  change (8 + (8 + 8 * 3)) with 40. change (8 + (40 + 8 * 0)) with 48.
  change (8 + (40 + 8 * 1)) with 56. change (8 + (40 + 8 * 2)) with 64.
  change (8 + (40 + 8 * 3)) with 72.
  unfold mount_file. cbv zeta. reflexivity.
Qed.

(** ** Running ufsHeaderInit *)

(** The world after a ufsHeaderInit at a fresh path whose ufsImageCreate
    succeeded, before ufsHeaderValidate. *)
Definition init_world (w : world) (p : string) (sizes : ufsHeaderSizeRequestStruct) : world :=
  let L := resolveSize (w_page w) sizes in
  mkWorld (<[p := mount_file (store_le (truncate_file (mkFile 0 ∅ 420) L) 0 8 L) sizes]>
             (w_fs w))
          (<[w_next w := mkMapping p L true true]> (w_maps w))
          (w_next w + 1) UFS_NO_ERROR (w_page w).

Definition caps_nonzero (sizes : ufsHeaderSizeRequestStruct) : bool :=
  negb ((numFiles sizes =? 0) || (numAreas sizes =? 0) || (numNodes sizes =? 0)
        || (numStrBytes sizes =? 0)).

Lemma ufsHeaderInit_create_mount s p sizes w :
  0 < w_next w -> caps_nonzero sizes = true -> w_fs w !! p = None ->
  8 <= resolveSize (w_page w) sizes ->
  sys_open_creat s p = None ->
  sys_ftruncate s p (resolveSize (w_page w) sizes) = true ->
  sys_mmap s p (resolveSize (w_page w) sizes) = true ->
  ufsHeaderInit s (Some p) sizes w = ufsHeaderValidate (w_next w, 0) (init_world w p sizes).
Proof.
  intros Hn Hc Hf HL Ho Ht Hm.
  unfold caps_nonzero in Hc. apply negb_true_iff in Hc.
  unfold ufsHeaderInit. rewrite Hc.
  unfold bindM at 1, sys_access. rewrite Hf. cbn [bool_decide decide_rel is_Some_dec].
  unfold bindM at 1, getW.
  unfold bindM at 1. rewrite (ufsImageCreate_run s p _ w Hn HL), Ho, Ht, Hm.
  cbn [negb]. rewrite bool_decide_false by (unfold NULL; intros [=]; lia).
  unfold bindM.
  rewrite (mountHeader_run _ (w_next w) (mkMapping p (resolveSize (w_page w) sizes) true true)
             (store_le (truncate_file (created_file w p) (resolveSize (w_page w) sizes)) 0 8
                (resolveSize (w_page w) sizes))).
  - unfold created_file, init_world, set_fs. rewrite Hf. cbn. rewrite insert_insert_eq.
    reflexivity.
  - split; [lia|]. cbn. apply lookup_insert_eq.
  - cbn. apply lookup_insert_eq.
Qed.
Lemma ufsImageCreate_small s p size w :
  size < 8 -> ufsImageCreate s (Some p) size w = Some (NULL, set_errno UFS_BAD_CALL w).
Proof.
  intros Hs. unfold ufsImageCreate. rewrite (proj2 (Z.ltb_lt size 8) Hs). reflexivity.
Qed.

Lemma ufsHeaderInit_nonnull s p sizes w img w' :
  0 < w_next w -> ufsHeaderInit s (Some p) sizes w = Some (img, w') -> img <> NULL ->
  caps_nonzero sizes = true /\ w_fs w !! p = None /\
  8 <= resolveSize (w_page w) sizes /\ sys_open_creat s p = None /\
  sys_ftruncate s p (resolveSize (w_page w) sizes) = true /\
  sys_mmap s p (resolveSize (w_page w) sizes) = true.
Proof.
  intros Hn H Hi. revert H. unfold ufsHeaderInit, caps_nonzero.
  destruct (_ || _ || _ || _) eqn:Hc.
  { unfold bindM, retM, setErrno. intros [=]; congruence. }
  unfold bindM at 1, sys_access.
  destruct (w_fs w !! p) eqn:Hf; cbn [bool_decide decide_rel is_Some_dec].
  { unfold bindM, retM, setErrno. intros [=]; congruence. }
  unfold bindM at 1, getW. unfold bindM at 1.
  destruct (Z.le_gt_cases 8 (resolveSize (w_page w) sizes)) as [HL|HL].
  2:{ rewrite (ufsImageCreate_small s p _ w HL). rewrite bool_decide_true by done.
      unfold retM. intros [=]; congruence. }
  rewrite (ufsImageCreate_run s p _ w Hn HL).
  destruct (sys_open_creat s p).
  { rewrite bool_decide_true by done. unfold retM. intros [=]; congruence. }
  destruct (sys_ftruncate s p _) eqn:Ht; cbn [negb].
  2:{ rewrite bool_decide_true by done. unfold retM. intros [=]; congruence. }
  destruct (sys_mmap s p _) eqn:Hm; cbn [negb].
  2:{ rewrite bool_decide_true by done. unfold retM. intros [=]; congruence. }
  intros _. split; [reflexivity|]. split; [reflexivity|]. split; [exact HL|].
  split; [reflexivity|]. split; reflexivity.
Qed.

Lemma roundToBoundary_range v a : 0 <= roundToBoundary v a < u64_mod.
Proof.
  unfold roundToBoundary, u64_mod.
  rewrite <- Z.land_ones by lia. rewrite Z.land_assoc, Z.land_ones by lia.
  apply Z.mod_pos_bound. lia.
Qed.

Lemma resolveSize_range pageSize sizes : 0 <= resolveSize pageSize sizes < u64_mod.
Proof. unfold resolveSize. apply roundToBoundary_range. Qed.

Lemma mount_file_len f sizes : f_len (mount_file f sizes) = f_len f.
Proof. unfold mount_file. cbv zeta. rewrite !store_le_len. reflexivity. Qed.

Lemma mount_file_prelude f sizes : load_le (mount_file f sizes) 0 8 = load_le f 0 8.
Proof.
  unfold mount_file. cbv zeta.
  rewrite !load_le_store_le_other by reflexivity. reflexivity.
Qed.

(** The 8-byte length word written into a file of at least 8 bytes reads back. *)
Lemma length_word_store f v :
  8 <= f_len f -> 0 <= v < u64_mod -> load_le (store_le f 0 8 v) 0 8 = v.
Proof.
  intros Hl Hv. rewrite load_le_store_le_same by (cbn; lia).
  apply Z.mod_small. unfold u64_mod in Hv. exact Hv.
Qed.

Definition length_word_ok (w : world) (img : ptr) : Prop :=
  exists m f, img.2 = 0 /\ mapped w img.1 m /\ w_fs w !! m_path m = Some f /\
              load_u64 img w = Some (f_len f, w).

Lemma length_word_after_create s p size w img w' :
  0 < w_next w -> 0 <= size < u64_mod ->
  ufsImageCreate s (Some p) size w = Some (img, w') -> img <> NULL -> length_word_ok w' img.
Proof.
  intros Hn Hs H Hi. revert H.
  destruct (Z.le_gt_cases 8 size) as [HL|HL].
  2:{ rewrite (ufsImageCreate_small s p size w HL). intros [=]; congruence. }
  rewrite (ufsImageCreate_run s p size w Hn HL).
  destruct (sys_open_creat s p); [intros [=]; congruence|].
  destruct (sys_ftruncate s p size); cbn [negb]; [|intros [=]; congruence].
  destruct (sys_mmap s p size); cbn [negb]; [|intros [=]; congruence].
  intros [= <- <-].
  set (F := truncate_file (created_file w p) size).
  assert (HF : f_len (store_le F 0 8 size) = size) by (rewrite store_le_len; reflexivity).
  exists (mkMapping p size true true), (store_le F 0 8 size).
  split; [reflexivity|].
  assert (Hm : mapped (mkWorld (<[p:=store_le F 0 8 size]> (w_fs w))
                        (<[w_next w:=mkMapping p size true true]> (w_maps w))
                        (w_next w + 1) UFS_NO_ERROR (w_page w)) (w_next w)
                      (mkMapping p size true true))
    by (split; [lia|]; cbn; apply lookup_insert_eq).
  split; [exact Hm|]. split; [cbn; apply lookup_insert_eq|].
  unfold load_u64. rewrite (mem_load_mapped _ _ _ _ _ Hm).
  unfold file_of. cbn [w_fs m_path]. rewrite lookup_insert_eq. cbn [default from_option id].
 rewrite HF, length_word_store by (unfold F; cbn [f_len truncate_file]; lia). reflexivity.
Qed.

Lemma length_word_after_init s p sizes w img w' :
  0 < w_next w ->
  ufsHeaderInit s (Some p) sizes w = Some (img, w') -> img <> NULL -> length_word_ok w' img.
Proof.
  intros Hn H Hi.
  destruct (ufsHeaderInit_nonnull s p sizes w img w' Hn H Hi)
    as (Hc & Hf & HL & Ho & Ht & Hmm).
  revert H. rewrite (ufsHeaderInit_create_mount s p sizes w Hn Hc Hf HL Ho Ht Hmm).
  set (L := resolveSize (w_page w) sizes) in *.
  set (F := mount_file (store_le (truncate_file (mkFile 0 ∅ 420) L) 0 8 L) sizes).
  assert (Hm : mapped (init_world w p sizes) (w_next w) (mkMapping p L true true))
    by (split; [lia|]; cbn; apply lookup_insert_eq).
  assert (HW : w_fs (init_world w p sizes) !! p = Some F) by (cbn; apply lookup_insert_eq).
 rewrite (ufsHeaderValidate_run _ _ _ _ Hm). cbv zeta.
  destruct (_ =? UFS_MAGIC_NUMBER); [|intros [=]; congruence].
  destruct (_ =? UFS_INDEX_VERSION); [|intros [=]; congruence].
  intros [= <- <-].
  exists (mkMapping p L true true), F.
  split; [reflexivity|]. split; [exact Hm|]. split; [exact HW|].
  unfold load_u64. rewrite (mem_load_mapped _ _ _ _ _ Hm).
  unfold file_of. cbn [m_path]. rewrite HW. cbn [default from_option id].
  unfold F. rewrite mount_file_len, mount_file_prelude, store_le_len.
  rewrite length_word_store; [ |cbn [f_len truncate_file]; lia | apply resolveSize_range].
  cbn [f_len truncate_file]. reflexivity.
Qed.

Definition create_sample : option (ptr * world) :=
  ufsImageCreate sys_ok (Some "/tmp/img") 128 w0.

Definition init_sample : option (ptr * world) :=
  ufsHeaderInit sys_ok (Some "/tmp/img") (mkSizeRequest 1 1 1 64) w0.

(** C4: after every ufsImageCreate and every ufsHeaderInit that returns a
    non-null image (at offset 0 of a mapped block), the 64-bit length word
    read through the image equals the length of the file behind its mapping.
    The size given to ufsImageCreate is a uint64_t.  (Block 0 is never
    handed out by mmap.) *)
Theorem length_word_matches_file s w :
  0 < w_next w ->
  (forall p size img w', 0 <= size < u64_mod ->
     ufsImageCreate s (Some p) size w = Some (img, w') -> img <> NULL ->
     length_word_ok w' img) /\
  (forall p sizes img w',
     ufsHeaderInit s (Some p) sizes w = Some (img, w') -> img <> NULL ->
     length_word_ok w' img).
Proof.
  intros Hn. split.
  - intros p size img w' Hs H Hi. exact (length_word_after_create s p size w img w' Hn Hs H Hi).
  - intros p sizes img w' H Hi. exact (length_word_after_init s p sizes w img w' Hn H Hi).
Qed.

Lemma length_word_matches_file_witness :
  (match create_sample with Some (img, w') => length_word_ok w' img | None => False end) /\
  (match init_sample with Some (img, w') => length_word_ok w' img | None => False end).
Proof.
  destruct (length_word_matches_file sys_ok w0 ltac:(vm_compute; reflexivity)) as [T1 T2].
  split.
  - unfold create_sample.
    destruct (ufsImageCreate sys_ok (Some "/tmp/img") 128 w0) as [[img w']|] eqn:E;
      [|vm_compute in E; discriminate].
    apply (T1 "/tmp/img" 128 img w'); [unfold u64_mod; lia | exact E |].
    vm_compute in E. injection E as <- _. unfold NULL. intros [=].
  - unfold init_sample.
    destruct (ufsHeaderInit sys_ok (Some "/tmp/img") (mkSizeRequest 1 1 1 64) w0)
      as [[img w']|] eqn:E; [|vm_compute in E; discriminate].
    apply (T2 "/tmp/img" _ img w' E).
    vm_compute in E. injection E as <- _. unfold NULL. intros [=].
Defined.

(** The header as it lies in the bytes of a file, from byte [o] on. *)
Definition header_in_file (f : file) (o : Z) : ufsHeaderStruct :=
  mkHeader (load_le f o 4) (load_le f (o + 4) 4)
           [load_le f (o + 8) 8; load_le f (o + 16) 8;
            load_le f (o + 24) 8; load_le f (o + 32) 8]
           [load_le f (o + 40) 8; load_le f (o + 48) 8;
            load_le f (o + 56) 8; load_le f (o + 64) 8].

(** The offsets chain of mountHeader. *)
Definition mount_offsets (sizes : ufsHeaderSizeRequestStruct) : list Z :=
  let offset := sizeof_u64 in
  let offset := roundToBoundary offset alignof_header in
  let offset := add64 offset sizeof_header in
  let o0 := roundToBoundary offset alignof_file in
  let offset := add64 o0 (mul64 sizeof_file (numFiles sizes)) in
  let o1 := roundToBoundary offset alignof_area in
  let offset := add64 o1 (mul64 sizeof_area (numAreas sizes)) in
  let o2 := roundToBoundary offset alignof_node in
  let offset := add64 o2 (mul64 sizeof_node (numNodes sizes)) in
  let o3 := roundToBoundary offset alignof_char in
  [o0; o1; o2; o3].

(** The header the spec expects for a size request. *)
Definition requested_header (sizes : ufsHeaderSizeRequestStruct) : ufsHeaderStruct :=
  mkHeader UFS_MAGIC_NUMBER UFS_INDEX_VERSION
           [numFiles sizes; numAreas sizes; numNodes sizes; numStrBytes sizes]
           (table_offsets sizes).

Lemma load_header_in_file w b m o :
  mapped w b m ->
  load_header (b, o) w = Some (header_in_file (file_of w (m_path m)) o, w).
Proof. intros Hm. rewrite (load_header_mapped w b m o Hm). reflexivity. Qed.

Lemma header_in_file_prelude f v :
  header_in_file (store_le f 0 8 v) 8 = header_in_file f 8.
Proof. unfold header_in_file. rewrite !load_le_store_le_other by reflexivity. reflexivity. Qed.

Lemma load_le_store_le_at f off n v off' m :
  off' = off -> m = n -> 0 <= off -> off + Z.of_nat n <= f_len f ->
  load_le (store_le f off n v) off' m = v mod 2 ^ (8 * Z.of_nat n).
Proof. intros -> ->. apply load_le_store_le_same. Qed.

Ltac load_step :=
  match goal with
  | |- context [load_le (store_le ?f ?o ?n ?v) ?o' ?m] =>
      first [ rewrite (load_le_store_le_other f o n v o' m) by reflexivity
            | rewrite (load_le_store_le_at f o n v o' m)
                by (first [reflexivity | lia | rewrite ?store_le_len; lia]) ]
  end.

Lemma mount_offsets_exact pageSize sizes :
  page_ok pageSize -> request_ok sizes -> image_length pageSize sizes < u64_mod ->
  mount_offsets sizes = table_offsets sizes.
Proof.
  intros [k [Hk ->]] (H1 & H2 & H3 & H4) Hlen. unfold u64_ok in *.
  unfold mount_offsets, table_offsets, image_length in *.
  change (add64 (roundToBoundary sizeof_u64 alignof_header) sizeof_header) with 80.
  change (align_up 8 alignof_header + sizeof_header) with 80 in *.
  unfold alignof_file, alignof_area, alignof_node, alignof_char,
    sizeof_file, sizeof_area, sizeof_node, sizeof_char in *.
  set (m1 := align_up 80 8 + 16 * numFiles sizes) in *.
  set (m2 := align_up m1 8 + 16 * numAreas sizes) in *.
  set (m3 := align_up m2 8 + 48 * numNodes sizes) in *.
  set (m4 := align_up m3 1 + 1 * numStrBytes sizes) in *.
  assert (Hpos : 0 < 2 ^ k) by (apply Z.pow_pos_nonneg; lia).
  pose proof (align_up_ge m4 (2 ^ k) Hpos).
  pose proof (align_up_ge m3 1 ltac:(lia)).
  pose proof (align_up_ge m2 8 ltac:(lia)).
  pose proof (align_up_ge m1 8 ltac:(lia)).
  pose proof (align_up_ge 80 8 ltac:(lia)).
  assert (0 <= m1) by (unfold m1; lia).
  assert (m1 <= m2) by (unfold m2; lia).
  assert (m2 <= m3) by (unfold m3; lia).
  assert (m3 <= m4) by (unfold m4; lia).
  rewrite (step_exact 80 8 3) by (reflexivity || lia). fold m1.
  rewrite (step_exact m1 8 3) by (reflexivity || lia). fold m2.
  rewrite (step_exact m2 8 3) by (reflexivity || lia). fold m3.
  assert (E8 : forall v, 0 <= v -> v + 8 - 1 < u64_mod -> roundToBoundary v 8 = align_up v 8)
    by (intros v Hv Hb; apply (roundToBoundary_pow2 v 3); [lia|lia|exact Hb]).
  assert (E1 : forall v, 0 <= v -> v + 1 - 1 < u64_mod -> roundToBoundary v 1 = align_up v 1)
    by (intros v Hv Hb; apply (roundToBoundary_pow2 v 0); [lia|lia|exact Hb]).
  rewrite (E8 80) by (unfold u64_mod; lia).
  rewrite (E8 m1) by (try lia; apply (align_up_bound m1 8 3); lia).
  rewrite (E8 m2) by (try lia; apply (align_up_bound m2 8 3); lia).
  rewrite (E1 m3) by (try lia; apply (align_up_bound m3 1 0); lia).
  reflexivity.
Qed.

Lemma mount_file_header f sizes pageSize :
  80 <= f_len f -> page_ok pageSize -> request_ok sizes ->
  image_length pageSize sizes < u64_mod ->
  header_in_file (mount_file f sizes) 8 = requested_header sizes.
Proof.
  intros Hl Hp Hr Hlen.
  unfold requested_header. rewrite <- (mount_offsets_exact pageSize sizes Hp Hr Hlen).
  unfold header_in_file, mount_file, mount_offsets. cbv zeta.
  repeat load_step.
  destruct Hr as (H1 & H2 & H3 & H4). unfold u64_ok, u64_mod in *.
  f_equal.
  - rewrite !Z.mod_small by (cbn; lia). reflexivity.
  - rewrite !Z.mod_small by apply roundToBoundary_range. reflexivity.
Qed.

Lemma mount_file_magic_version f sizes :
  80 <= f_len f ->
  load_le (mount_file f sizes) 8 4 = UFS_MAGIC_NUMBER /\
  load_le (mount_file f sizes) 12 4 = UFS_INDEX_VERSION.
Proof.
  intros Hl. unfold mount_file. cbv zeta.
  split; repeat load_step; reflexivity.
Qed.

Lemma image_length_ge pageSize sizes :
  page_ok pageSize -> request_ok sizes -> 80 <= image_length pageSize sizes.
Proof.
  intros [k [Hk ->]] (H1 & H2 & H3 & H4). unfold u64_ok in *.
  assert (Hpos : 0 < 2 ^ k) by (apply Z.pow_pos_nonneg; lia).
  unfold image_length. cbv zeta.
  change (align_up 8 alignof_header + sizeof_header) with 80.
  unfold alignof_file, alignof_area, alignof_node, alignof_char,
    sizeof_file, sizeof_area, sizeof_node, sizeof_char.
  match goal with |- 80 <= align_up ?v _ => pose proof (align_up_ge v (2 ^ k) Hpos) end.
  pose proof (align_up_ge 80 8 ltac:(lia)).
  pose proof (align_up_ge (align_up 80 8 + 16 * numFiles sizes) 8 ltac:(lia)).
  pose proof (align_up_ge (align_up (align_up 80 8 + 16 * numFiles sizes) 8
                           + 16 * numAreas sizes) 8 ltac:(lia)).
  pose proof (align_up_ge (align_up (align_up (align_up 80 8 + 16 * numFiles sizes) 8
                           + 16 * numAreas sizes) 8 + 48 * numNodes sizes) 1 ltac:(lia)).
  lia.
Qed.

(** C1 (amended): the header round trip holds for a size request whose
    capacities are positive uint64_t values and whose layout (including the
    final page rounding, with a power-of-two page size) fits in a uint64_t,
    at a path with no file, when the system calls behind ufsImageCreate and
    ufsImageOpen succeed.  Then ufsHeaderInit returns the image mapped at the
    next block, whose header holds the magic number, the version, the four
    requested capacities and the offsets of the layout; ufsImageOpen of the
    same path returns an image whose header is the same (the length word it
    writes at offset 0 touches no header field), and ufsHeaderValidate
    returns that image unchanged. *)
Theorem header_roundtrip s p sizes w :
  0 < w_next w -> w_fs w !! p = None -> caps_nonzero sizes = true ->
  page_ok (w_page w) -> request_ok sizes -> image_length (w_page w) sizes < u64_mod ->
  sys_open_creat s p = None ->
  sys_ftruncate s p (image_length (w_page w) sizes) = true ->
  sys_mmap s p (image_length (w_page w) sizes) = true ->
  sys_open_rw s p = true -> sys_fstat s p = true ->
  exists w1 w2,
    ufsHeaderInit s (Some p) sizes w = Some ((w_next w, 0), w1) /\
    load_header (ufsHeaderGet (w_next w, 0)) w1 = Some (requested_header sizes, w1) /\
    ufsImageOpen s (Some p) w1 = Some ((w_next w + 1, 0), w2) /\
    load_header (ufsHeaderGet (w_next w + 1, 0)) w2 = Some (requested_header sizes, w2) /\
    ufsHeaderValidate (w_next w + 1, 0) w2 = Some ((w_next w + 1, 0), w2).
Proof.
  intros Hn Hf Hc Hp Hr Hlen Ho Ht Hmm Hrw Hst.
  pose proof (image_length_ge _ _ Hp Hr) as H80.
  pose proof (resolveSize_exact _ _ Hp Hr Hlen) as HL.
  rewrite <- HL in Ht, Hmm, H80.
  set (L := resolveSize (w_page w) sizes) in *.
  set (W1 := init_world w p sizes).
  set (F := mount_file (store_le (truncate_file (mkFile 0 ∅ 420) L) 0 8 L) sizes).
  assert (HFl : f_len F = L)
    by (unfold F; rewrite mount_file_len, store_le_len; reflexivity).
  assert (HH : header_in_file F 8 = requested_header sizes).
  { unfold F. apply (mount_file_header _ sizes (w_page w)); [|exact Hp|exact Hr|exact Hlen].
    rewrite store_le_len. cbn [f_len truncate_file]. exact H80. }
  assert (HF80 : 80 <= f_len (store_le (truncate_file (mkFile 0 ∅ 420) L) 0 8 L))
    by (rewrite store_le_len; cbn [f_len truncate_file]; exact H80).
  pose proof (mount_file_magic_version _ sizes HF80) as [HM HV]. fold F in HM, HV.
  assert (Hm1 : mapped W1 (w_next w) (mkMapping p L true true))
    by (split; [lia|]; unfold W1, init_world; cbv zeta; cbn [w_maps]; apply lookup_insert_eq).
  assert (HW1 : w_fs W1 !! p = Some F)
    by (unfold W1, init_world; cbv zeta; cbn [w_fs]; apply lookup_insert_eq).
  assert (Hfile1 : file_of W1 p = F) by (unfold file_of; rewrite HW1; reflexivity).
  assert (HI : ufsHeaderInit s (Some p) sizes w = Some ((w_next w, 0), W1)).
  { rewrite (ufsHeaderInit_create_mount s p sizes w Hn Hc Hf ltac:(lia) Ho Ht Hmm).
    rewrite (ufsHeaderValidate_run _ _ _ _ Hm1). cbv zeta. cbn [m_path].
    rewrite Hfile1. change (0 + 8) with 8. change (8 + 4) with 12.
    rewrite HM, HV. reflexivity. }
  assert (HG1 : load_header (ufsHeaderGet (w_next w, 0)) W1 = Some (requested_header sizes, W1)).
  { unfold ufsHeaderGet, ptr_add. cbn [fst snd].
    change (0 + roundToBoundary sizeof_u64 alignof_header) with 8.
    rewrite (load_header_in_file _ _ _ _ Hm1). cbn [m_path]. rewrite Hfile1, HH. reflexivity. }
  assert (Hn1 : w_next W1 = w_next w + 1) by reflexivity.
  set (W2 := mkWorld (<[p := store_le F 0 8 L]> (w_fs W1))
                     (<[w_next W1 := mkMapping p L true true]> (w_maps W1))
                     (w_next W1 + 1) UFS_NO_ERROR (w_page W1)).
  assert (HO : ufsImageOpen s (Some p) W1 = Some ((w_next w + 1, 0), W2)).
  { rewrite (ufsImageOpen_run s p W1 ltac:(rewrite Hn1; lia)).
    rewrite HW1, Hrw, Hst. cbn [negb]. rewrite HFl.
    rewrite (proj2 (Z.ltb_ge L 8)) by lia. rewrite Hmm. cbn [negb]. reflexivity. }
  assert (Hm2 : mapped W2 (w_next w + 1) (mkMapping p L true true)).
  { split; [lia|]. unfold W2. cbn [w_maps]. rewrite Hn1. apply lookup_insert_eq. }
  assert (Hfile2 : file_of W2 p = store_le F 0 8 L).
  { unfold file_of, W2. cbn [w_fs]. rewrite lookup_insert_eq. reflexivity. }
  assert (HG2 : load_header (ufsHeaderGet (w_next w + 1, 0)) W2 = Some (requested_header sizes, W2)).
  { unfold ufsHeaderGet, ptr_add. cbn [fst snd].
    change (0 + roundToBoundary sizeof_u64 alignof_header) with 8.
    rewrite (load_header_in_file _ _ _ _ Hm2). cbn [m_path].
    rewrite Hfile2, header_in_file_prelude, HH. reflexivity. }
  assert (HV2 : ufsHeaderValidate (w_next w + 1, 0) W2 = Some ((w_next w + 1, 0), W2)).
  { rewrite (ufsHeaderValidate_run _ _ _ _ Hm2). cbv zeta. cbn [m_path].
    rewrite Hfile2. change (0 + 8) with 8. change (8 + 4) with 12.
    rewrite !load_le_store_le_other by reflexivity. rewrite HM, HV. reflexivity. }
  exists W1, W2.
  split; [exact HI|]. split; [exact HG1|]. split; [exact HO|]. split; [exact HG2|exact HV2].
Qed.

Definition overflow_request : ufsHeaderSizeRequestStruct :=
  mkSizeRequest 1 1 1 (u64_mod - 160).

(** C1 (counterexample): a request with four positive capacities at a path
    with no file, all system calls succeeding, for which ufsHeaderInit fails:
    the uint64_t size computation wraps to 0, ufsImageCreate rejects the size
    with UFS_BAD_CALL and ufsHeaderInit returns NULL. *)
Lemma ufsHeaderInit_overflow_fails :
  caps_nonzero overflow_request = true /\ w_fs w0 !! "/tmp/img" = None /\
  ufsHeaderInit sys_ok (Some "/tmp/img") overflow_request w0 =
    Some (NULL, set_errno UFS_BAD_CALL w0).
Proof. split; [reflexivity|]. split; [reflexivity|]. vm_compute. reflexivity. Qed.

Lemma header_roundtrip_witness :
  exists w1 w2,
    ufsHeaderInit sys_ok (Some "/tmp/img") (mkSizeRequest 1 1 1 64) w0 = Some ((1, 0), w1) /\
    load_header (ufsHeaderGet (1, 0)) w1 = Some (requested_header (mkSizeRequest 1 1 1 64), w1) /\
    ufsImageOpen sys_ok (Some "/tmp/img") w1 = Some ((1 + 1, 0), w2) /\
    load_header (ufsHeaderGet (1 + 1, 0)) w2 =
      Some (requested_header (mkSizeRequest 1 1 1 64), w2) /\
    ufsHeaderValidate (1 + 1, 0) w2 = Some ((1 + 1, 0), w2).
Proof.
  apply (header_roundtrip sys_ok "/tmp/img" (mkSizeRequest 1 1 1 64) w0).
  - vm_compute. reflexivity.
  - reflexivity.
  - reflexivity.
  - exists 12. split; [lia | reflexivity].
  - unfold request_ok, u64_ok, u64_mod. cbn. lia.
  - vm_compute. reflexivity.
  - reflexivity.
  - reflexivity.
  - reflexivity.
  - reflexivity.
  - reflexivity.
Defined.

Definition wrap_request : ufsHeaderSizeRequestStruct :=
  mkSizeRequest (2 ^ 60) 1 1 1.

(** C3 (code bug): resolveSize and mountHeader compute in uint64_t and never
    check for wrap-around.  For the request {2^60, 1, 1, 1} (all capacities
    positive) the layout of the spec needs 2^64 + 4096 bytes, but the size
    computed by the code wraps to 4096; ufsHeaderInit succeeds, and the header
    it writes places the File table (2^60 slots of 16 bytes) and the Area
    table both at offset 80, so the tables overlap and do not fit in the
    4096-byte file. *)
Theorem resolveSize_wraps :
  resolveSize 4096 wrap_request = 4096 /\
  image_length 4096 wrap_request = 2 ^ 64 + 4096 /\
  match ufsHeaderInit sys_ok (Some "/tmp/img") wrap_request w0 with
  | Some (img, w1) =>
      img = (1, 0) /\
      load_header (ufsHeaderGet img) w1 =
        Some (mkHeader UFS_MAGIC_NUMBER UFS_INDEX_VERSION [2 ^ 60; 1; 1; 1]
                       [80; 80; 96; 144], w1)
  | None => False
  end.
Proof.
  split; [vm_compute; reflexivity|].
  split; [vm_compute; reflexivity|].
  vm_compute. split; reflexivity.
Qed.

Lemma set_errno_set_errno a c w : set_errno a (set_errno c w) = set_errno a w.
Proof. by destruct w. Qed.

Lemma ufsImageOpen_errno s path w e :
  0 < w_next w -> ufsImageOpen s path (set_errno e w) = ufsImageOpen s path w.
Proof.
  intros Hn. destruct path as [p|].
  2:{ unfold ufsImageOpen, bindM, setErrno, retM. rewrite set_errno_set_errno. reflexivity. }
  rewrite (ufsImageOpen_run s p (set_errno e w) Hn), (ufsImageOpen_run s p w Hn).
  cbn [w_fs w_maps w_next w_page set_errno].
  destruct (w_fs w !! p) as [f|]; [|by rewrite set_errno_set_errno].
  destruct (sys_open_rw s p); cbn [negb]; [|by rewrite set_errno_set_errno].
  destruct (sys_fstat s p); cbn [negb]; [|by rewrite set_errno_set_errno].
  destruct (f_len f <? 8); [by rewrite set_errno_set_errno|].
  destruct (sys_mmap s p (f_len f)); cbn [negb]; [reflexivity|by rewrite set_errno_set_errno].
Qed.

Lemma ufsImageCreate_errno s p size w e :
  0 < w_next w -> sys_ftruncate s p size = true ->
  ufsImageCreate s (Some p) size (set_errno e w) = ufsImageCreate s (Some p) size w.
Proof.
  intros Hn Ht.
  destruct (Z.le_gt_cases 8 size) as [HL|HL].
  2:{ rewrite !(ufsImageCreate_small s p size _ HL). by rewrite set_errno_set_errno. }
  rewrite (ufsImageCreate_run s p size (set_errno e w) Hn HL), (ufsImageCreate_run s p size w Hn HL).
  rewrite Ht. cbn [negb].
  unfold created_file. cbn [w_fs w_maps w_next w_page set_errno].
  destruct (sys_open_creat s p); [by rewrite set_errno_set_errno|].
  destruct (sys_mmap s p size); cbn [negb]; [reflexivity|].
  by destruct w.
Qed.

Lemma ufsImageCreate_truncate_fails s p size w :
  0 < w_next w -> 8 <= size -> sys_open_creat s p = None -> sys_ftruncate s p size = false ->
  exists w', ufsImageCreate s (Some p) size w = Some (NULL, w') /\ w_errno w' = w_errno w.
Proof.
  intros Hn HL Ho Ht. rewrite (ufsImageCreate_run s p size w Hn HL), Ho, Ht. cbn [negb].
  eexists. split; [reflexivity|]. unfold after_open_create.
  by destruct (w_fs w !! p).
Qed.

Lemma ufsHeaderInit_unfold s p sizes w :
  ufsHeaderInit s (Some p) sizes w =
    if (numFiles sizes =? 0) || (numAreas sizes =? 0) || (numNodes sizes =? 0)
       || (numStrBytes sizes =? 0)
    then Some (NULL, set_errno UFS_BAD_CALL w) else
    match w_fs w !! p with
    | Some _ => Some (NULL, set_errno UFS_BAD_CALL w)
    | None =>
        match ufsImageCreate s (Some p) (resolveSize (w_page w) sizes) w with
        | Some (ret, w1) =>
            (if bool_decide (ret = NULL) then retM NULL
             else img <-- mountHeader ret sizes ;; ufsHeaderValidate img) w1
        | None => None
        end
    end.
Proof.
  unfold ufsHeaderInit. destruct (_ || _ || _ || _); [reflexivity|].
  unfold bindM at 1, sys_access.
  destruct (w_fs w !! p); cbn [bool_decide decide_rel is_Some_dec]; reflexivity.
Qed.

Lemma ufsHeaderInit_errno s p sizes w e :
  0 < w_next w -> sys_ftruncate s p (resolveSize (w_page w) sizes) = true ->
  ufsHeaderInit s (Some p) sizes (set_errno e w) = ufsHeaderInit s (Some p) sizes w.
Proof.
  intros Hn Ht. rewrite !ufsHeaderInit_unfold. cbn [w_fs w_page set_errno].
  destruct (_ || _ || _ || _); [by rewrite set_errno_set_errno|].
  destruct (w_fs w !! p); [by rewrite set_errno_set_errno|].
  rewrite (ufsImageCreate_errno s p _ w e Hn Ht). reflexivity.
Qed.

Lemma ufsImageSync_status s img w b w' :
  ufsImageSync s img w = Some (b, w') ->
  w' = if b then w else set_errno UFS_IMAGE_COULD_NOT_SYNC w.
Proof.
  unfold ufsImageSync, bindM, load_u64, mem_load, sys_msync_range, setErrno, retM.
  destruct (img.1 =? 0); [discriminate|].
  destruct (w_maps w !! img.1); [|discriminate].
  destruct (sys_msync s _); cbn [negb]; intros [= <- <-]; reflexivity.
Qed.

Lemma ufsHeaderValidate_status img w r w' :
  ufsHeaderValidate img w = Some (r, w') -> r <> NULL -> w' = w.
Proof.
  unfold ufsHeaderValidate, bindM, load_u32, mem_load, setErrno, retM.
  destruct ((magic_at (ufsHeaderGet img)).1 =? 0); [discriminate|].
  destruct (w_maps w !! (magic_at (ufsHeaderGet img)).1); [|discriminate].
  destruct (negb (_ =? UFS_MAGIC_NUMBER)); [intros [= <- _]; congruence|].
  destruct ((version_at (ufsHeaderGet img)).1 =? 0); [discriminate|].
  destruct (w_maps w !! (version_at (ufsHeaderGet img)).1); [|discriminate].
  destruct (negb (_ =? UFS_INDEX_VERSION)); [intros [= <- _]; congruence|].
  intros [= _ <-]. reflexivity.
Qed.

Lemma ufsImageFree_status img w w' :
  ufsImageFree img w = Some (tt, w') -> w_errno w' = w_errno w.
Proof.
  unfold ufsImageFree, bindM, load_u64, mem_load, sys_munmap.
  destruct (img.1 =? 0); [discriminate|].
  destruct (w_maps w !! img.1); [|discriminate].
  repeat case_match; intros Hr; try discriminate Hr; injection Hr as <-; reflexivity.
Qed.

(** ftruncate is refused, everything else succeeds. *)
Definition sys_notrunc : sys :=
  mkSys (fun _ => true) (fun _ => None) (fun _ => true)
        (fun _ _ => false) (fun _ _ => true) (fun _ => true).

(** A process holding one 128-byte image whose header has the right magic
    number (bytes 8..11) and version (byte 12), mapped at block 1. *)
Definition w_hdr : world :=
  mkWorld {[ "/tmp/img" := mkFile 128 {[ 8 := 117; 9 := 102; 10 := 115; 12 := 1 ]} 420 ]}
          {[ 1 := mkMapping "/tmp/img" 128 true true ]} 2 UFS_NO_ERROR 4096.

Lemma after_open_create_errno w p : w_errno (after_open_create w p) = w_errno w.
Proof. unfold after_open_create. by destruct (w_fs w !! p). Qed.

(** C5 (code bug): the paths on which the status word ufsErrno is not set.
    When ftruncate fails, ufsImageCreate returns NULL and leaves ufsErrno as
    it was, against its documentation ("On error, will return NULL and set
    ufsErrno"), and ufsHeaderInit, which relies on ufsImageCreate having set
    it, returns NULL with the same stale status.  A successful ufsImageSync
    and a successful ufsHeaderValidate change nothing, and ufsImageFree never
    changes the status word. *)
Theorem status_left_unset :
  (forall s p size w, 0 < w_next w -> 8 <= size -> sys_open_creat s p = None ->
     sys_ftruncate s p size = false ->
     ufsImageCreate s (Some p) size w = Some (NULL, after_open_create w p) /\
     w_errno (after_open_create w p) = w_errno w) /\
  (forall s p sizes w, 0 < w_next w -> caps_nonzero sizes = true -> w_fs w !! p = None ->
     8 <= resolveSize (w_page w) sizes -> sys_open_creat s p = None ->
     sys_ftruncate s p (resolveSize (w_page w) sizes) = false ->
     ufsHeaderInit s (Some p) sizes w = Some (NULL, after_open_create w p)) /\
  (forall s img w w', ufsImageSync s img w = Some (true, w') -> w' = w) /\
  (forall img w r w', ufsHeaderValidate img w = Some (r, w') -> r <> NULL -> w' = w) /\
  (forall img w w', ufsImageFree img w = Some (tt, w') -> w_errno w' = w_errno w).
Proof.
  split.
  { intros s p size w Hn HL Ho Ht.
    rewrite (ufsImageCreate_run s p size w Hn HL), Ho, Ht. cbn [negb].
    split; [reflexivity|apply after_open_create_errno]. }
  split.
  { intros s p sizes w Hn Hc Hf HL Ho Ht.
    unfold caps_nonzero in Hc. apply negb_true_iff in Hc.
    rewrite ufsHeaderInit_unfold, Hc, Hf, (ufsImageCreate_run s p _ w Hn HL), Ho, Ht.
    cbn [negb]. rewrite bool_decide_true by reflexivity. reflexivity. }
  split; [intros s img w w' H; exact (ufsImageSync_status s img w true w' H)|].
  split; [exact ufsHeaderValidate_status|].
  exact ufsImageFree_status.
Qed.

Lemma status_left_unset_witness :
  (ufsImageCreate sys_notrunc (Some "/tmp/new") 128 w0 =
     Some (NULL, after_open_create w0 "/tmp/new") /\
   w_errno (after_open_create w0 "/tmp/new") = UFS_NO_ERROR) /\
  ufsHeaderInit sys_notrunc (Some "/tmp/new") (mkSizeRequest 1 1 1 64) w0 =
    Some (NULL, after_open_create w0 "/tmp/new") /\
  w_len = w_len /\ w_hdr = w_hdr /\ w_errno w_img = w_errno w_img.
Proof.
  destruct status_left_unset as (P1 & P2 & P3 & P4 & P5).
  split; [apply P1; [vm_compute; reflexivity | lia | reflexivity | reflexivity]|].
  split; [apply P2; [vm_compute; reflexivity | reflexivity | vm_compute; reflexivity
                    | vm_compute; congruence | reflexivity | vm_compute; reflexivity]|].
  split; [apply (P3 sys_ok (1, 0) w_len w_len); vm_compute; reflexivity|].
  split; [apply (P4 (1, 0) w_hdr (1, 0) w_hdr);
          [vm_compute; reflexivity | unfold NULL; intros [=]]|].
  apply (P5 (1, 0) w_img w_img). vm_compute. reflexivity.
Defined.

(** * Further properties of the image and header code *)

(** ** Rounding and sizes *)

Lemma roundToBoundary_multiple v k :
  0 <= k -> roundToBoundary v (2 ^ k) mod 2 ^ k = 0.
Proof.
  intros Hk. unfold roundToBoundary.
  replace (2 ^ k - 1) with (Z.ones k) by (rewrite Z.ones_equiv; lia).
  rewrite <- Z.land_ones by lia.
  unfold u64_mod. rewrite <- Z.land_ones by lia.
  apply Z.bits_inj'. intros i Hi.
  rewrite Z.bits_0, !Z.land_spec, Z.lnot_spec by lia.
  destruct (Z.lt_ge_cases i k).
  - rewrite (Z.ones_spec_low k i) by lia. cbn. rewrite !andb_false_r. done.
  - rewrite (Z.ones_spec_high k i) by lia. rewrite !andb_false_r. done.
Qed.

Lemma align_up_lt v a : 0 < a -> align_up v a < v + a.
Proof.
  intros Ha. unfold align_up.
  pose proof (Z.mul_div_le (v + a - 1) a Ha). lia.
Qed.

Lemma align_up_aligned v a : 0 < a -> v mod a = 0 -> align_up v a = v.
Proof.
  intros Ha Hv. unfold align_up.
  pose proof (Z.div_mod v a ltac:(lia)) as Hd. rewrite Hv, Z.add_0_r in Hd.
  rewrite Hd. replace (a * (v / a) + a - 1) with (a - 1 + v / a * a) by lia.
  rewrite Z.div_add by lia. rewrite Z.div_small by lia. lia.
Qed.

(** X1: for a power-of-two alignment 2^k (k < 64) and any uint64_t value v,
    roundToBoundary( v, 2^k ) is a multiple of 2^k, also when the addition
    wraps; when v + 2^k - 1 does not overflow it is the least multiple of 2^k
    at or above v; a value already aligned is returned unchanged. *)
Theorem roundToBoundary_pow2_spec v k :
  0 <= k < 64 -> 0 <= v < u64_mod ->
  roundToBoundary v (2 ^ k) mod 2 ^ k = 0 /\
  (v + 2 ^ k - 1 < u64_mod -> v <= roundToBoundary v (2 ^ k) < v + 2 ^ k) /\
  (v mod 2 ^ k = 0 -> roundToBoundary v (2 ^ k) = v).
Proof.
  intros Hk Hv. pose proof (Z.pow_pos_nonneg 2 k ltac:(lia) ltac:(lia)) as Hp.
  split; [apply roundToBoundary_multiple; lia|]. split.
  - intros Hlt. rewrite roundToBoundary_pow2 by lia.
    split; [apply align_up_ge; lia | apply align_up_lt; lia].
  - intros Hm.
    assert (Hdiv : u64_mod mod 2 ^ k = 0).
    { unfold u64_mod. replace 64 with ((64 - k) + k) by lia.
      rewrite Z.pow_add_r by lia. apply Z.mod_mul. lia. }
    assert (Hlt : v + 2 ^ k - 1 < u64_mod).
    { pose proof (Z.div_mod v (2 ^ k) ltac:(lia)) as Hd.
      pose proof (Z.div_mod u64_mod (2 ^ k) ltac:(lia)) as Hu.
      rewrite Hm in Hd. rewrite Hdiv in Hu.
      assert (v / 2 ^ k < u64_mod / 2 ^ k) by nia. nia. }
    rewrite roundToBoundary_pow2 by lia. apply align_up_aligned; lia.
Qed.

(** X2: for every size request and every power-of-two page size 2^k
    (k < 64), resolveSize returns a multiple of the page size, also when its
    64-bit computation wraps. *)
Theorem resolveSize_page_multiple k sizes :
  0 <= k < 64 -> resolveSize (2 ^ k) sizes mod 2 ^ k = 0.
Proof.
  intros Hk. unfold resolveSize. cbv zeta.
  rewrite (Z.mod_small (2 ^ k)).
  - apply roundToBoundary_multiple. lia.
  - unfold u64_mod. split; [lia|]. apply Z.pow_lt_mono_r; lia.
Qed.

(** ** Stores that repeat or commute *)

Lemma store_byte_twice f i v : store_byte (store_byte f i v) i v = store_byte f i v.
Proof.
  unfold store_byte. destruct ((0 <=? i) && (i <? f_len f)) eqn:Hc; [|by rewrite Hc].
  cbn [f_len f_data f_mode]. rewrite Hc. by rewrite insert_insert_eq.
Qed.

Lemma store_byte_comm f i j v u :
  i <> j -> store_byte (store_byte f i v) j u = store_byte (store_byte f j u) i v.
Proof.
  intros Hne. unfold store_byte.
  destruct ((0 <=? i) && (i <? f_len f)) eqn:Hi;
  destruct ((0 <=? j) && (j <? f_len f)) eqn:Hj;
  cbn [f_len f_data f_mode]; rewrite ?Hi, ?Hj; try reflexivity.
  by rewrite insert_insert_ne by lia.
Qed.

Lemma store_byte_store_le n f o v i u :
  i < o -> store_byte (store_le f o n v) i u = store_le (store_byte f i u) o n v.
Proof.
  revert f o v. induction n as [|n IH]; intros f o v Hi; cbn [store_le]; [done|].
  rewrite IH by lia. rewrite store_byte_comm by lia. reflexivity.
Qed.

Lemma store_le_twice n f o v : store_le (store_le f o n v) o n v = store_le f o n v.
Proof.
  revert f o v. induction n as [|n IH]; intros f o v; cbn [store_le]; [done|].
  rewrite store_byte_store_le by lia. rewrite store_byte_twice. apply IH.
Qed.

Lemma ufsImageOpen_success s p w img w1 :
  0 < w_next w -> ufsImageOpen s (Some p) w = Some (img, w1) -> img <> NULL ->
  exists f, w_fs w !! p = Some f /\ sys_open_rw s p = true /\ sys_fstat s p = true /\
    8 <= f_len f /\ sys_mmap s p (f_len f) = true /\ img = (w_next w, 0) /\
    w1 = mkWorld (<[p := store_le f 0 8 (f_len f)]> (w_fs w))
                 (<[w_next w := mkMapping p (f_len f) true true]> (w_maps w))
                 (w_next w + 1) UFS_NO_ERROR (w_page w).
Proof.
  intros Hn H Hi. revert H. rewrite (ufsImageOpen_run s p w Hn).
  destruct (w_fs w !! p) as [f|] eqn:Hf; [|intros [=]; congruence].
  destruct (sys_open_rw s p) eqn:Ho; cbn [negb]; [|intros [=]; congruence].
  destruct (sys_fstat s p) eqn:Hs; cbn [negb]; [|intros [=]; congruence].
  destruct (f_len f <? 8) eqn:Hl; [intros [=]; congruence|].
  destruct (sys_mmap s p (f_len f)) eqn:Hm; cbn [negb]; [|intros [=]; congruence].
  intros [= <- <-]. exists f. apply Z.ltb_ge in Hl.
  repeat split; first [assumption | reflexivity].
Qed.

(** X3: mountHeader on an image mapped at offset 0 writes only bytes 8..79
    of the file (the header): the length word at bytes 0..7, every byte from
    80 on, the length and the mode of the file are kept, and no other file,
    no mapping and not the status word change. *)
Theorem mountHeader_frame w b m f sizes :
  mapped w b m -> w_fs w !! m_path m = Some f ->
  exists f', mountHeader (b, 0) sizes w =
               Some ((b, 0), set_fs (<[m_path m := f']> (w_fs w)) w) /\
             f_len f' = f_len f /\ f_mode f' = f_mode f /\
             forall j, j < 8 \/ 80 <= j -> byte_at f' j = byte_at f j.
Proof.
  intros Hm Hf. exists (mount_file f sizes).
  split; [apply (mountHeader_run w b m f sizes Hm Hf)|].
  split; [apply mount_file_len|].
  unfold mount_file. cbv zeta.
  split.
  - assert (Hmode : forall g o n v, f_mode (store_le g o n v) = f_mode g).
    { intros g o n. revert g o. induction n as [|n IH]; intros g o v; cbn [store_le]; [done|].
      rewrite IH. unfold store_byte. by destruct (_ && _). }
    rewrite !Hmode. reflexivity.
  - intros j Hj. rewrite !byte_at_store_le_out by (cbn [Z.of_nat Pos.of_succ_nat Pos.succ]; lia).
    reflexivity.
Qed.

(** X4: ufsImageSync has no null check: ufsImageSync( NULL ) dereferences
    the null pointer, whatever the state. *)
Theorem ufsImageSync_null s w : ufsImageSync s NULL w = None.
Proof. reflexivity. Qed.

(** X5: on an image just returned by ufsImageOpen (of a file shorter than
    2^64 bytes), ufsImageSync passes msync the length of the whole mapping,
    which is the length of the file; a successful sync changes nothing, a
    failed one sets only the status word, to IMAGE_COULD_NOT_SYNC. *)
Theorem ufsImageOpen_then_sync s s' p w img w1 :
  0 < w_next w -> f_len (file_of w p) < u64_mod -> ufsImageOpen s (Some p) w = Some (img, w1) -> img <> NULL ->
  exists m, w_maps w1 !! img.1 = Some m /\ m_len m = f_len (file_of w1 p) /\
    ufsImageSync s' img w1 =
      if sys_msync s' (m_len m) then Some (true, w1)
      else Some (false, set_errno UFS_IMAGE_COULD_NOT_SYNC w1).
Proof.
  intros Hn Hu H Hi.
  destruct (ufsImageOpen_success s p w img w1 Hn H Hi)
    as (f & Hf & _ & _ & Hl & _ & -> & ->).
  unfold file_of in Hu. rewrite Hf in Hu. simpl in Hu.
  exists (mkMapping p (f_len f) true true).
  assert (Hm : w_maps (mkWorld (<[p := store_le f 0 8 (f_len f)]> (w_fs w))
                 (<[w_next w := mkMapping p (f_len f) true true]> (w_maps w))
                 (w_next w + 1) UFS_NO_ERROR (w_page w)) !! w_next w
               = Some (mkMapping p (f_len f) true true))
    by (cbn [w_maps]; apply lookup_insert_eq).
  assert (HF : file_of (mkWorld (<[p := store_le f 0 8 (f_len f)]> (w_fs w))
                 (<[w_next w := mkMapping p (f_len f) true true]> (w_maps w))
                 (w_next w + 1) UFS_NO_ERROR (w_page w)) p = store_le f 0 8 (f_len f))
    by (unfold file_of; cbn [w_fs]; rewrite lookup_insert_eq; reflexivity).
  split; [exact Hm|]. split; [rewrite HF, store_le_len; reflexivity|].
  unfold ufsImageSync, bindM, load_u64, sys_msync_range, setErrno, retM.
  rewrite (mem_load_mapped _ (w_next w) (mkMapping p (f_len f) true true))
    by (split; [lia|exact Hm]).
  cbn [m_path fst snd]. rewrite HF.
  rewrite length_word_store by (rewrite ?store_le_len; lia).
  cbn [fst snd m_len]. destruct (sys_msync s' (f_len f)); cbn [negb]; reflexivity.
Qed.

(** ** Composing the image operations *)

Lemma ufsImageCreate_success s p size w img w1 :
  0 < w_next w -> ufsImageCreate s (Some p) size w = Some (img, w1) -> img <> NULL ->
  8 <= size /\ sys_open_creat s p = None /\ sys_ftruncate s p size = true /\
  sys_mmap s p size = true /\ img = (w_next w, 0) /\
  w1 = mkWorld (<[p := store_le (truncate_file (created_file w p) size) 0 8 size]> (w_fs w))
               (<[w_next w := mkMapping p size true true]> (w_maps w))
               (w_next w + 1) UFS_NO_ERROR (w_page w).
Proof.
  intros Hn H Hi.
  destruct (Z.le_gt_cases 8 size) as [HL|HL].
  2:{ revert H. rewrite (ufsImageCreate_small s p size w HL). intros [=]; congruence. }
  revert H. rewrite (ufsImageCreate_run s p size w Hn HL).
  destruct (sys_open_creat s p); [intros [=]; congruence|].
  destruct (sys_ftruncate s p size); cbn [negb]; [|intros [=]; congruence].
  destruct (sys_mmap s p size); cbn [negb]; [|intros [=]; congruence].
  intros [= <- <-]. repeat split; first [assumption | reflexivity].
Qed.

(** X6: on an image just returned by ufsImageOpen (of a file shorter than
    2^64 bytes), ufsImageFree releases exactly that mapping and changes no
    file; every later ufsImageSync, ufsImageFree or ufsHeaderValidate through
    the same handle then dereferences unmapped memory. *)
Theorem ufsImageOpen_then_free s s' p w img w1 :
  0 < w_next w -> f_len (file_of w p) < u64_mod ->
  ufsImageOpen s (Some p) w = Some (img, w1) -> img <> NULL ->
  ufsImageFree img w1 = Some (tt, set_maps (delete img.1 (w_maps w1)) w1) /\
  ufsImageSync s' img (set_maps (delete img.1 (w_maps w1)) w1) = None /\
  ufsImageFree img (set_maps (delete img.1 (w_maps w1)) w1) = None /\
  ufsHeaderValidate img (set_maps (delete img.1 (w_maps w1)) w1) = None.
Proof.
  intros Hn Hu H Hi.
  destruct (ufsImageOpen_success s p w img w1 Hn H Hi)
    as (f & Hf & _ & _ & Hl & _ & -> & ->).
  unfold file_of in Hu. rewrite Hf in Hu. simpl in Hu.
  assert (Hb : (w_next w =? 0) = false) by (apply Z.eqb_neq; lia).
  split.
  - unfold ufsImageFree, bindM, load_u64.
    rewrite (mem_load_mapped _ (w_next w) (mkMapping p (f_len f) true true))
      by (split; [lia|cbn [w_maps]; apply lookup_insert_eq]).
    cbn [m_path fst snd].
    replace (file_of _ p) with (store_le f 0 8 (f_len f))
      by (unfold file_of; cbn [w_fs]; rewrite lookup_insert_eq; reflexivity).
    rewrite length_word_store by (rewrite ?store_le_len; lia).
    unfold sys_munmap. rewrite (proj2 (Z.eqb_neq (f_len f) 0)) by lia.
    cbn [fst snd]. rewrite Zmod_0_l. cbn [Z.eqb negb orb w_maps].
    rewrite lookup_insert_eq. cbn [m_len andb]. rewrite Z.eqb_refl. reflexivity.
  - cbn [fst]. split; [|split].
    + unfold ufsImageSync, bindM, load_u64, mem_load. cbn [fst w_maps set_maps].
      rewrite Hb, lookup_delete_eq. reflexivity.
    + unfold ufsImageFree, bindM, load_u64, mem_load. cbn [fst w_maps set_maps].
      rewrite Hb, lookup_delete_eq. reflexivity.
    + unfold ufsHeaderValidate, bindM, load_u32, mem_load. run_world.
      cbn [set_maps w_maps]. rewrite Hb, lookup_delete_eq. reflexivity.
Qed.

(** X7: ufsImageCreate does not refuse a file that already exists (no
    O_EXCL): when the system calls succeed it truncates that file to size,
    keeps its mode and every byte from offset 8 below both the old and the new
    length, and returns a new mapping of size bytes. *)
Theorem ufsImageCreate_existing s p size w f :
  0 < w_next w -> 8 <= size -> w_fs w !! p = Some f ->
  sys_open_creat s p = None -> sys_ftruncate s p size = true -> sys_mmap s p size = true ->
  exists f', ufsImageCreate s (Some p) size w =
      Some ((w_next w, 0),
            mkWorld (<[p := f']> (w_fs w)) (<[w_next w := mkMapping p size true true]> (w_maps w))
                    (w_next w + 1) UFS_NO_ERROR (w_page w)) /\
    f_len f' = size /\ f_mode f' = f_mode f /\
    forall j, 8 <= j < Z.min size (f_len f) -> byte_at f' j = byte_at f j.
Proof.
  intros Hn HL Hf Ho Ht Hm.
  rewrite (ufsImageCreate_run s p size w Hn HL), Ho, Ht, Hm. cbn [negb].
  unfold created_file. rewrite Hf. change (default (mkFile 0 ∅ 420) (Some f)) with f.
  eexists. split; [reflexivity|]. split; [rewrite store_le_len; reflexivity|].
  split.
  - assert (Hmode : forall g o n v, f_mode (store_le g o n v) = f_mode g).
    { intros g o n. revert g o. induction n as [|n IH]; intros g o v; cbn [store_le]; [done|].
      rewrite IH. unfold store_byte. by destruct (_ && _). }
    rewrite Hmode. reflexivity.
  - intros j Hj. rewrite byte_at_store_le_out by (cbn [Z.of_nat Pos.of_succ_nat]; lia).
    unfold byte_at, truncate_file. cbn [f_len f_data].
    rewrite (proj2 (andb_true_iff _ _) (conj (proj2 (Z.leb_le 0 j) ltac:(lia))
                                            (proj2 (Z.ltb_lt j size) ltac:(lia)))).
    rewrite (proj2 (andb_true_iff _ _) (conj (proj2 (Z.leb_le 0 j) ltac:(lia))
                                            (proj2 (Z.ltb_lt j (f_len f)) ltac:(lia)))).
    rewrite map_lookup_filter. destruct (f_data f !! j) as [x|]; [|reflexivity].
    cbn [mbind option_bind]. rewrite option_guard_True by (cbn; lia). reflexivity.
Qed.

(** X8: after ufsImageCreate( path, size ) returns an image, ufsImageOpen(
    path ), when its open, fstat and mmap succeed, returns a second, new
    mapping of size bytes and leaves the file exactly as ufsImageCreate left
    it. *)
Theorem ufsImageCreate_then_open s p size w img w1 :
  0 < w_next w -> ufsImageCreate s (Some p) size w = Some (img, w1) -> img <> NULL ->
  sys_open_rw s p = true -> sys_fstat s p = true -> sys_mmap s p size = true ->
  ufsImageOpen s (Some p) w1 =
    Some ((w_next w1, 0),
          mkWorld (w_fs w1) (<[w_next w1 := mkMapping p size true true]> (w_maps w1))
                  (w_next w1 + 1) UFS_NO_ERROR (w_page w1)).
Proof.
  intros Hn H Hi Ho Hs Hm.
  destruct (ufsImageCreate_success s p size w img w1 Hn H Hi)
    as (HL & _ & _ & _ & _ & ->).
  rewrite ufsImageOpen_run by (cbn [w_next]; lia).
  cbn [w_fs w_maps w_next w_page]. rewrite lookup_insert_eq, Ho, Hs. cbn [negb].
  rewrite store_le_len. cbn [truncate_file f_len].
  rewrite (proj2 (Z.ltb_ge size 8) HL), Hm. cbn [negb].
  rewrite store_le_twice, insert_insert_eq. reflexivity.
Qed.

(** X9: opening an image a second time, with the same system-call outcomes,
    returns a new handle, different from the first, mapping the whole file,
    and changes no file: the length word the first ufsImageOpen wrote is
    rewritten with the same value. *)
Theorem ufsImageOpen_reopen s p w img w1 :
  0 < w_next w -> ufsImageOpen s (Some p) w = Some (img, w1) -> img <> NULL ->
  ufsImageOpen s (Some p) w1 =
    Some ((w_next w1, 0),
          mkWorld (w_fs w1)
                  (<[w_next w1 := mkMapping p (f_len (file_of w1 p)) true true]> (w_maps w1))
                  (w_next w1 + 1) UFS_NO_ERROR (w_page w1)) /\
  (w_next w1, 0) <> img.
Proof.
  intros Hn H Hi.
  destruct (ufsImageOpen_success s p w img w1 Hn H Hi)
    as (f & Hf & Ho & Hs & Hl & Hm & -> & ->).
  split; [|cbn [w_next]; intros [=]; lia].
  rewrite ufsImageOpen_run by (cbn [w_next]; lia).
  replace (file_of _ p) with (store_le f 0 8 (f_len f))
    by (unfold file_of; cbn [w_fs]; rewrite lookup_insert_eq; reflexivity).
  cbn [w_fs w_maps w_next w_page]. rewrite lookup_insert_eq, Ho, Hs. cbn [negb].
  rewrite store_le_len.
  rewrite (proj2 (Z.ltb_ge (f_len f) 8) Hl), Hm. cbn [negb].
  rewrite store_le_twice, insert_insert_eq. reflexivity.
Qed.

(** ** ufsHeaderInit and ufsHeaderValidate on fresh files *)

(** X10: when ufsHeaderInit fails after open( O_CREAT ) has created the
    file, because ftruncate or mmap fails, it returns NULL but the file stays
    at path, so every later ufsHeaderInit on that path, with any size request,
    fails with BAD_CALL. *)
Theorem ufsHeaderInit_failure_leaves_file s p sizes w :
  0 < w_next w -> caps_nonzero sizes = true -> w_fs w !! p = None ->
  8 <= resolveSize (w_page w) sizes -> sys_open_creat s p = None ->
  sys_ftruncate s p (resolveSize (w_page w) sizes) = false \/
  sys_mmap s p (resolveSize (w_page w) sizes) = false ->
  exists w1, ufsHeaderInit s (Some p) sizes w = Some (NULL, w1) /\ is_Some (w_fs w1 !! p) /\
    forall s' sizes',
      ufsHeaderInit s' (Some p) sizes' w1 = Some (NULL, set_errno UFS_BAD_CALL w1).
Proof.
  intros Hn Hc Hf HL Ho Hfail.
  unfold caps_nonzero in Hc. apply negb_true_iff in Hc.
  assert (Hretry : forall w1, is_Some (w_fs w1 !! p) -> forall s' sizes',
            ufsHeaderInit s' (Some p) sizes' w1 = Some (NULL, set_errno UFS_BAD_CALL w1)).
  { intros w1 [g Hg] s' sizes'. rewrite ufsHeaderInit_unfold, Hg.
    destruct ((numFiles sizes' =? 0) || (numAreas sizes' =? 0) || (numNodes sizes' =? 0)
              || (numStrBytes sizes' =? 0)); reflexivity. }
  rewrite ufsHeaderInit_unfold, Hc, Hf, (ufsImageCreate_run s p _ w Hn HL), Ho.
  destruct (sys_ftruncate s p _) eqn:Ht; cbn [negb].
  - destruct Hfail as [Hfail|Hfail]; [congruence|]. rewrite Hfail. cbn [negb].
    rewrite bool_decide_true by reflexivity.
    assert (Hw : is_Some (w_fs (set_errno UFS_UNKNOWN_ERROR
                   (set_fs (<[p := truncate_file (created_file w p)
                                    (resolveSize (w_page w) sizes)]> (w_fs w)) w)) !! p))
      by (cbn [w_fs set_errno set_fs]; rewrite lookup_insert_eq; eexists; reflexivity).
    eexists. split; [reflexivity|]. split; [exact Hw|apply Hretry; exact Hw].
  - rewrite bool_decide_true by reflexivity.
    assert (Hw : is_Some (w_fs (after_open_create w p) !! p))
      by (unfold after_open_create; rewrite Hf; cbn [w_fs set_fs];
          rewrite lookup_insert_eq; eexists; reflexivity).
    eexists. split; [reflexivity|]. split; [exact Hw|apply Hretry; exact Hw].
Qed.

(** X11: an image that ufsImageCreate has just made from a new file is not
    a ufs image: its bytes are zero, so ufsHeaderValidate rejects it with
    IMAGE_IS_CORRUPTED. *)
Theorem ufsImageCreate_not_valid s p size w img w1 :
  0 < w_next w -> w_fs w !! p = None ->
  ufsImageCreate s (Some p) size w = Some (img, w1) -> img <> NULL ->
  ufsHeaderValidate img w1 = Some (NULL, set_errno UFS_IMAGE_IS_CORRUPTED w1).
Proof.
  intros Hn Hf H Hi.
  destruct (ufsImageCreate_success s p size w img w1 Hn H Hi)
    as (HL & _ & _ & _ & -> & ->).
  unfold created_file. rewrite Hf. change (default (mkFile 0 ∅ 420) None) with (mkFile 0 ∅ 420).
  rewrite (ufsHeaderValidate_run _ (w_next w) 0 (mkMapping p size true true))
    by (split; [lia|cbn [w_maps]; apply lookup_insert_eq]).
  cbv zeta. cbn [m_path].
  replace (file_of _ p) with (store_le (truncate_file (mkFile 0 ∅ 420) size) 0 8 size)
    by (unfold file_of; cbn [w_fs]; rewrite lookup_insert_eq; reflexivity).
  change (0 + 8) with 8.
  rewrite load_le_store_le_other by reflexivity.
  assert (Hz : forall j, byte_at (truncate_file (mkFile 0 ∅ 420) size) j = 0).
  { intros j. unfold byte_at, truncate_file. cbn [f_len f_data].
    rewrite map_filter_empty, lookup_empty. by destruct (_ && _). }
  cbn [load_le]. rewrite !Hz. reflexivity.
Qed.

(** X12: when ufsHeaderInit returns an image, it is the new mapping (the
    next block, at offset 0), the status word is NO_ERROR, and no file other
    than the one at path and no mapping other than the new one has changed. *)
Theorem ufsHeaderInit_success_frame s p sizes w img w1 :
  0 < w_next w -> ufsHeaderInit s (Some p) sizes w = Some (img, w1) -> img <> NULL ->
  img = (w_next w, 0) /\ w_errno w1 = UFS_NO_ERROR /\ w_next w1 = w_next w + 1 /\
  (forall q, q <> p -> w_fs w1 !! q = w_fs w !! q) /\
  (forall b, b <> w_next w -> w_maps w1 !! b = w_maps w !! b).
Proof.
  intros Hn H Hi.
  destruct (ufsHeaderInit_nonnull s p sizes w img w1 Hn H Hi)
    as (Hc & Hf & HL & Ho & Ht & Hmm).
  revert H. rewrite (ufsHeaderInit_create_mount s p sizes w Hn Hc Hf HL Ho Ht Hmm).
  rewrite (ufsHeaderValidate_run _ (w_next w) 0
             (mkMapping p (resolveSize (w_page w) sizes) true true))
    by (split; [lia|cbn [w_maps init_world]; apply lookup_insert_eq]).
  cbv zeta.
  destruct (_ =? UFS_MAGIC_NUMBER); [|intros [=]; congruence].
  destruct (_ =? UFS_INDEX_VERSION); [|intros [=]; congruence].
  intros [= <- <-].
  split; [reflexivity|]. split; [reflexivity|]. split; [reflexivity|].
  split.
  - intros q Hq. unfold init_world. cbn [w_fs]. apply lookup_insert_ne. congruence.
  - intros b Hb. unfold init_world. cbn [w_maps]. apply lookup_insert_ne. congruence.
Qed.

(** ** Samples for the properties above *)

Definition result_world (r : option (ptr * world)) (d : world) : world :=
  match r with Some (_, w) => w | None => d end.
Definition open_world : world :=
  result_world (ufsImageOpen sys_ok (Some "/tmp/img") w_img) w_img.
Definition create_world : world :=
  result_world (ufsImageCreate sys_ok (Some "/tmp/new") 128 w0) w0.
Definition init_request : ufsHeaderSizeRequestStruct := mkSizeRequest 1 1 1 64.
Definition init_sample_world : world :=
  result_world (ufsHeaderInit sys_ok (Some "/tmp/new") init_request w0) w0.

Lemma roundToBoundary_pow2_spec_witness :
  roundToBoundary 4097 (2 ^ 12) mod 2 ^ 12 = 0 /\
  (4097 + 2 ^ 12 - 1 < u64_mod -> 4097 <= roundToBoundary 4097 (2 ^ 12) < 4097 + 2 ^ 12) /\
  (4097 mod 2 ^ 12 = 0 -> roundToBoundary 4097 (2 ^ 12) = 4097).
Proof. apply roundToBoundary_pow2_spec; unfold u64_mod; lia. Defined.

Lemma resolveSize_page_multiple_witness :
  resolveSize (2 ^ 12) ufsDefaultSizeRequest mod 2 ^ 12 = 0.
Proof. apply (resolveSize_page_multiple 12). lia. Defined.

Lemma mountHeader_frame_witness :
  exists f', mountHeader (1, 0) ufsDefaultSizeRequest w_hdr =
               Some ((1, 0), set_fs (<["/tmp/img" := f']> (w_fs w_hdr)) w_hdr) /\
             f_len f' = 128 /\ f_mode f' = 420 /\
             forall j, j < 8 \/ 80 <= j ->
               byte_at f' j = byte_at (mkFile 128 {[ 8 := 117; 9 := 102; 10 := 115; 12 := 1 ]} 420) j.
Proof.
  apply (mountHeader_frame w_hdr 1 (mkMapping "/tmp/img" 128 true true)
           (mkFile 128 {[ 8 := 117; 9 := 102; 10 := 115; 12 := 1 ]} 420)).
  - split; [lia | vm_compute; reflexivity].
  - vm_compute. reflexivity.
Defined.

Lemma ufsImageOpen_then_sync_witness :
  exists m, w_maps open_world !! 2 = Some m /\ m_len m = f_len (file_of open_world "/tmp/img") /\
    ufsImageSync sys_ok (2, 0) open_world =
      if sys_msync sys_ok (m_len m) then Some (true, open_world)
      else Some (false, set_errno UFS_IMAGE_COULD_NOT_SYNC open_world).
Proof.
  apply (ufsImageOpen_then_sync sys_ok sys_ok "/tmp/img" w_img (2, 0) open_world).
  - vm_compute. reflexivity.
  - vm_compute. reflexivity.
  - vm_compute. reflexivity.
  - intros [=].
Defined.

Lemma ufsImageOpen_then_free_witness :
  ufsImageFree (2, 0) open_world = Some (tt, set_maps (delete 2 (w_maps open_world)) open_world) /\
  ufsImageSync sys_ok (2, 0) (set_maps (delete 2 (w_maps open_world)) open_world) = None /\
  ufsImageFree (2, 0) (set_maps (delete 2 (w_maps open_world)) open_world) = None /\
  ufsHeaderValidate (2, 0) (set_maps (delete 2 (w_maps open_world)) open_world) = None.
Proof.
  apply (ufsImageOpen_then_free sys_ok sys_ok "/tmp/img" w_img (2, 0) open_world).
  - vm_compute. reflexivity.
  - vm_compute. reflexivity.
  - vm_compute. reflexivity.
  - intros [=].
Defined.

Lemma ufsImageCreate_existing_witness :
  exists f', ufsImageCreate sys_ok (Some "/tmp/img") 256 w_hdr =
      Some ((w_next w_hdr, 0),
            mkWorld (<["/tmp/img" := f']> (w_fs w_hdr))
                    (<[w_next w_hdr := mkMapping "/tmp/img" 256 true true]> (w_maps w_hdr))
                    (w_next w_hdr + 1) UFS_NO_ERROR (w_page w_hdr)) /\
    f_len f' = 256 /\ f_mode f' = 420 /\
    forall j, 8 <= j < Z.min 256 128 ->
      byte_at f' j = byte_at (mkFile 128 {[ 8 := 117; 9 := 102; 10 := 115; 12 := 1 ]} 420) j.
Proof.
  apply (ufsImageCreate_existing sys_ok "/tmp/img" 256 w_hdr
           (mkFile 128 {[ 8 := 117; 9 := 102; 10 := 115; 12 := 1 ]} 420)).
  - vm_compute. reflexivity.
  - lia.
  - vm_compute. reflexivity.
  - reflexivity.
  - reflexivity.
  - reflexivity.
Defined.

Lemma ufsImageCreate_then_open_witness :
  ufsImageOpen sys_ok (Some "/tmp/new") create_world =
    Some ((w_next create_world, 0),
          mkWorld (w_fs create_world)
                  (<[w_next create_world := mkMapping "/tmp/new" 128 true true]>
                     (w_maps create_world))
                  (w_next create_world + 1) UFS_NO_ERROR (w_page create_world)).
Proof.
  apply (ufsImageCreate_then_open sys_ok "/tmp/new" 128 w0 (1, 0) create_world).
  - vm_compute. reflexivity.
  - vm_compute. reflexivity.
  - intros [=].
  - reflexivity.
  - reflexivity.
  - reflexivity.
Defined.

Lemma ufsImageOpen_reopen_witness :
  ufsImageOpen sys_ok (Some "/tmp/img") open_world =
    Some ((w_next open_world, 0),
          mkWorld (w_fs open_world)
                  (<[w_next open_world :=
                       mkMapping "/tmp/img" (f_len (file_of open_world "/tmp/img")) true true]>
                     (w_maps open_world))
                  (w_next open_world + 1) UFS_NO_ERROR (w_page open_world)) /\
  (w_next open_world, 0) <> (2, 0).
Proof.
  apply (ufsImageOpen_reopen sys_ok "/tmp/img" w_img (2, 0) open_world).
  - vm_compute. reflexivity.
  - vm_compute. reflexivity.
  - intros [=].
Defined.

Lemma ufsHeaderInit_failure_leaves_file_witness :
  exists w1, ufsHeaderInit sys_notrunc (Some "/tmp/new") init_request w0 = Some (NULL, w1) /\
    is_Some (w_fs w1 !! "/tmp/new") /\
    forall s' sizes',
      ufsHeaderInit s' (Some "/tmp/new") sizes' w1 = Some (NULL, set_errno UFS_BAD_CALL w1).
Proof.
  apply (ufsHeaderInit_failure_leaves_file sys_notrunc "/tmp/new" init_request w0).
  - vm_compute. reflexivity.
  - reflexivity.
  - vm_compute. reflexivity.
  - vm_compute. congruence.
  - reflexivity.
  - left. reflexivity.
Defined.

Lemma ufsImageCreate_not_valid_witness :
  ufsHeaderValidate (1, 0) create_world =
    Some (NULL, set_errno UFS_IMAGE_IS_CORRUPTED create_world).
Proof.
  apply (ufsImageCreate_not_valid sys_ok "/tmp/new" 128 w0 (1, 0) create_world).
  - vm_compute. reflexivity.
  - vm_compute. reflexivity.
  - vm_compute. reflexivity.
  - intros [=].
Defined.

Lemma ufsHeaderInit_success_frame_witness :
  (1, 0) = (w_next w0, 0) /\ w_errno init_sample_world = UFS_NO_ERROR /\
  w_next init_sample_world = w_next w0 + 1 /\
  (forall q, q <> "/tmp/new" -> w_fs init_sample_world !! q = w_fs w0 !! q) /\
  (forall b, b <> w_next w0 -> w_maps init_sample_world !! b = w_maps w0 !! b).
Proof.
  apply (ufsHeaderInit_success_frame sys_ok "/tmp/new" init_request w0 (1, 0) init_sample_world).
  - vm_compute. reflexivity.
  - vm_compute. reflexivity.
  - intros [=].
Defined.
